(** * Chat session controller of [app/page.tsx]

    A shallow embedding of the client-side logic of the chat page: the
    resolution of the backend endpoint, the staging of attachments, the
    "new chat" reset and the asynchronous [submitPrompt] callback, together
    with the properties the specification states about them.

    Conventions of the embedding.

    - A JavaScript string is the sequence of its UTF-16 code units
      ([jsstring]); literals of the source are written [str "..."].
    - The pieces of React state of [Home] form the record [Session]; a call
      of a state setter is an [Update], either a plain value or a functional
      updater, as in React's [SetStateAction].
    - [submitPrompt] is an [async] function: it is embedded as a [Task], a
      tree that dispatches updates and suspends on the three promises it
      awaits ([fetch], [response.text()], [response.json()]).  What the
      network answers is an input of the model ([Settled Response]).
    - An event handler runs against the state of the last render and React
      renders again before the next event is delivered; the page as a whole
      is the event loop [handle] over a [Page].
    - The definitions follow [app/page.tsx]; the second variant of the page
      has the same controller without the attachments. *)

From Stdlib Require Import Strings.String Strings.Ascii.
From Stdlib Require Import NArith ZArith Bool Lia DecimalString.
From stdpp Require Import base list.

Set Warnings "-register-all".
Local Open Scope N_scope.

(** ** JavaScript strings *)

Module JsString.

(** A UTF-16 code unit. *)
Definition code_unit := N.

Definition jsstring := list code_unit.

(** The code units of an ASCII literal of the source. *)
Definition str (s : String.string) : jsstring :=
  map N_of_ascii (list_ascii_of_string s).
Arguments str s%_string.

Definition is_empty (s : jsstring) : bool :=
  match s with [] => true | _ :: _ => false end.

(** [a || b] on strings: the empty string is the only falsy string. *)
Definition or_else (a b : jsstring) : jsstring :=
  if is_empty a then b else a.

(** ECMAScript [WhiteSpace] and [LineTerminator] code points, the ones
    [String.prototype.trim] removes. *)
Definition is_white_space (c : code_unit) : bool :=
  (9 <=? c) && (c <=? 13)              (* TAB LF VT FF CR *)
  || (c =? 32) || (c =? 160)           (* SP NBSP *)
  || (c =? 5760)                       (* U+1680 *)
  || (8192 <=? c) && (c <=? 8202)      (* U+2000 .. U+200A *)
  || (c =? 8232) || (c =? 8233)        (* LS PS *)
  || (c =? 8239) || (c =? 8287)        (* U+202F U+205F *)
  || (c =? 12288) || (c =? 65279).     (* U+3000 U+FEFF *)

Fixpoint trimStart (s : jsstring) : jsstring :=
  match s with
  | c :: rest => if is_white_space c then trimStart rest else s
  | [] => []
  end.

(** Drops the white space at the end: a code unit is kept when it is not
    white space or when something is kept after it. *)
Fixpoint trimEnd (s : jsstring) : jsstring :=
  match s with
  | [] => []
  | c :: rest =>
      match trimEnd rest with
      | [] => if is_white_space c then [] else [c]
      | kept => c :: kept
      end
  end.

(** [s.trim()] *)
Definition trim (s : jsstring) : jsstring := trimEnd (trimStart s).

Definition slash : code_unit := 47.

Definition is_slash (c : code_unit) : bool := c =? slash.

(** [s.startsWith('/')] *)
Definition startsWith_slash (s : jsstring) : bool :=
  match s with
  | c :: _ => is_slash c
  | [] => false
  end.

(** [s.replace(/\/+$/, '')].  The pattern has no [g] flag, so the leftmost
    match is replaced: the first position from which one or more slashes
    reach the end of the string.  Everything from there on is dropped. *)
Fixpoint replace_trailing_slashes (s : jsstring) : jsstring :=
  match s with
  | [] => []
  | c :: rest =>
      if is_slash c && forallb is_slash rest then []
      else c :: replace_trailing_slashes rest
  end.

(** Removal of every slash at the start, used only to state properties. *)
Fixpoint drop_leading_slashes (s : jsstring) : jsstring :=
  match s with
  | c :: rest => if is_slash c then drop_leading_slashes rest else s
  | [] => []
  end.

Definition ends_with_slash (s : jsstring) : bool :=
  match last s with
  | Some c => is_slash c
  | None => false
  end.

End JsString.
Export JsString.

(** ** Endpoint configuration *)

(** The two values of [process.env] the page reads; [None] is [undefined]. *)
Record ProcessEnv := {
  NEXT_PUBLIC_BACKEND_URL : option jsstring;
  NEXT_PUBLIC_BACKEND_PATH : option jsstring
}.

Definition DEFAULT_BACKEND_URL : jsstring :=
  str "https://fastapi-dev.calmdesert-eab0db8f.eastus.azurecontainerapps.io".

Definition DEFAULT_BACKEND_PATH : jsstring := str "/chat".

(** [a ?? b] where [a] is a string or [undefined]. *)
Definition coalesce {A} (a : option A) (b : A) : A :=
  match a with Some v => v | None => b end.

Definition RAW_BACKEND_URL (env : ProcessEnv) : jsstring :=
  coalesce (NEXT_PUBLIC_BACKEND_URL env) DEFAULT_BACKEND_URL.

Definition RAW_BACKEND_PATH (env : ProcessEnv) : jsstring :=
  coalesce (NEXT_PUBLIC_BACKEND_PATH env) DEFAULT_BACKEND_PATH.

Definition NORMALIZED_BACKEND_URL (env : ProcessEnv) : jsstring :=
  replace_trailing_slashes (RAW_BACKEND_URL env).

Definition NORMALIZED_BACKEND_PATH (env : ProcessEnv) : jsstring :=
  if startsWith_slash (RAW_BACKEND_PATH env) then RAW_BACKEND_PATH env
  else slash :: RAW_BACKEND_PATH env.

Definition BACKEND_ENDPOINT (env : ProcessEnv) : jsstring :=
  NORMALIZED_BACKEND_URL env ++ NORMALIZED_BACKEND_PATH env.

(** The environment in which both values are configured. *)
Definition configured (base path : jsstring) : ProcessEnv :=
  {| NEXT_PUBLIC_BACKEND_URL := Some base; NEXT_PUBLIC_BACKEND_PATH := Some path |}.

(** The endpoint as the specification words it: the base without its
    trailing slashes, one slash, the path without its leading slashes. *)
Definition spec_endpoint (base path : jsstring) : jsstring :=
  replace_trailing_slashes base ++ slash :: drop_leading_slashes path.

(** ** JSON values *)

(** A value produced by [JSON.parse].  A number is carried by its canonical
    form ([Number::toString]), which is [Infinity] or [-Infinity] for a
    literal too large for a double; an object by its own properties in
    enumeration order, each key once. *)
Inductive JsVal :=
| JNull
| JBool (b : bool)
| JNumber (repr : jsstring)
| JString (s : jsstring)
| JArray (items : list JsVal)
| JObject (props : list (jsstring * JsVal)).

Module Json.

Fixpoint eqb (a b : jsstring) : bool :=
  match a, b with
  | [], [] => true
  | x :: a', y :: b' => (x =? y) && eqb a' b'
  | _, _ => false
  end.

Definition hex_digit (n : N) : code_unit :=
  if n <? 10 then 48 + n else 87 + n.

(** [UnicodeEscape]: a backslash, [u] and four lower-case hexadecimal digits. *)
Definition unicode_escape (c : code_unit) : jsstring :=
  [92; 117; hex_digit (c / 4096 mod 16); hex_digit (c / 256 mod 16);
   hex_digit (c / 16 mod 16); hex_digit (c mod 16)].

Definition is_leading_surrogate (c : code_unit) : bool :=
  (55296 <=? c) && (c <=? 56319).

Definition is_trailing_surrogate (c : code_unit) : bool :=
  (56320 <=? c) && (c <=? 57343).

(** One code unit of [QuoteJSONString] that is not half of a well-formed
    surrogate pair. *)
Definition escape_unit (c : code_unit) : jsstring :=
  if c =? 8 then [92; 98]               (* backspace *)
  else if c =? 9 then [92; 116]         (* tab *)
  else if c =? 10 then [92; 110]        (* line feed *)
  else if c =? 12 then [92; 102]        (* form feed *)
  else if c =? 13 then [92; 114]        (* carriage return *)
  else if c =? 34 then [92; 34]         (* double quote *)
  else if c =? 92 then [92; 92]         (* backslash *)
  else if (c <? 32) || is_leading_surrogate c || is_trailing_surrogate c
       then unicode_escape c
  else [c].

Fixpoint escape_units (s : jsstring) : jsstring :=
  match s with
  | [] => []
  | c :: rest =>
      match rest with
      | d :: rest' =>
          if is_leading_surrogate c && is_trailing_surrogate d
          then c :: d :: escape_units rest'
          else escape_unit c ++ escape_units rest
      | [] => escape_unit c
      end
  end.

(** [QuoteJSONString] *)
Definition quote (s : jsstring) : jsstring := 34 :: escape_units s ++ [34].

Fixpoint join (sep : jsstring) (parts : list jsstring) : jsstring :=
  match parts with
  | [] => []
  | [p] => p
  | p :: rest => p ++ sep ++ join sep rest
  end.

(** Whether [repr] is the canonical form of a finite number; the three
    other forms are those of the infinities and of [NaN]. *)
Definition is_finite (repr : jsstring) : bool :=
  negb (eqb repr (str "Infinity") || eqb repr (str "-Infinity") || eqb repr (str "NaN")).

(** [JSON.stringify(v)] with no replacer and no indentation.  A number that
    is not finite is written [null]. *)
Fixpoint stringify (v : JsVal) : jsstring :=
  match v with
  | JNull => str "null"
  | JBool true => str "true"
  | JBool false => str "false"
  | JNumber repr => if is_finite repr then repr else str "null"
  | JString s => quote s
  | JArray items => str "[" ++ join (str ",") (map stringify items) ++ str "]"
  | JObject props =>
      str "{"
      ++ join (str ",")
           (map (fun '(key, value) => quote key ++ str ":" ++ stringify value) props)
      ++ str "}"
  end.

(** The own property [name] of an object, [None] for [undefined]. *)
Fixpoint own_property (name : jsstring) (props : list (jsstring * JsVal))
  : option JsVal :=
  match props with
  | [] => None
  | (key, value) :: rest =>
      if eqb key name then Some value else own_property name rest
  end.

Definition has_property (name : jsstring) (v : JsVal) : bool :=
  match v with
  | JObject props =>
      match own_property name props with Some _ => true | None => false end
  | _ => false
  end.

End Json.

(** ** Promises and the network *)

(** What a [catch] clause receives: an instance of [Error] with its
    [message], or any other thrown value. *)
Inductive Thrown :=
| ErrorObject (message : jsstring)
| NotAnError.

(** How a promise settles. *)
Inductive Settled (A : Type) :=
| Fulfilled (value : A)
| Rejected (reason : Thrown).
Arguments Fulfilled {A} value.
Arguments Rejected {A} reason.

(** A [Response] as the page uses it: its status and how the promises of
    [text()] and [json()] settle. *)
Record Response := {
  status : N;
  text : Settled jsstring;
  json : Settled JsVal
}.

(** [response.ok]: the status is in the range 200-299. *)
Definition ok (response : Response) : bool :=
  (200 <=? status response) && (status response <=? 299).

(** A staged [File]. *)
Record File := {
  file_name : jsstring;
  file_size : N;
  file_content : list N
}.

Inductive FormDataEntryValue :=
| FormString (s : jsstring)
| FormFile (f : File).

Inductive BodyInit :=
| FormData (entries : list (jsstring * FormDataEntryValue))
| StringBody (s : jsstring).

(** [RequestInit]; [headers] is [None] when the property is absent. *)
Record RequestInit := {
  method : jsstring;
  headers : option (list (jsstring * jsstring));
  body : BodyInit
}.

(** ** Session state *)

Inductive Role := user | assistant.

(** [content] is typed [string] in the source; at run time it holds whatever
    value the reply expression produced. *)
Record Message := {
  role : Role;
  content : JsVal
}.

Definition WELCOME_MESSAGE : jsstring :=
  str "Hi there! I am connected to the FastAPI backend running inside Azure Container Apps. Ask me anything about the deployment or try out a few prompts below.".

Definition APOLOGY : jsstring :=
  str "I could not reach the backend right now. Please try again in a moment.".

(** The [useState] cells of [Home]. *)
Record Session := {
  messages : list Message;
  input : jsstring;
  isLoading : bool;
  error : jsstring;
  highlightedSuggestion : option jsstring;
  attachedFiles : list File;
  activeHistoryId : jsstring
}.

Definition initial_session : Session := {|
  messages := [{| role := assistant; content := JString WELCOME_MESSAGE |}];
  input := [];
  isLoading := false;
  error := [];
  highlightedSuggestion := None;
  attachedFiles := [];
  activeHistoryId := str "deployment"
|}.

(** The argument of a state setter: a value or a function of the previous
    value. *)
Inductive SetStateAction (A : Type) :=
| Value (v : A)
| Updater (f : A -> A).
Arguments Value {A} v.
Arguments Updater {A} f.

Definition next_value {A} (a : SetStateAction A) (prev : A) : A :=
  match a with
  | Value v => v
  | Updater f => f prev
  end.

(** A call of one of the state setters. *)
Inductive Update :=
| setMessages (a : SetStateAction (list Message))
| setInput (a : SetStateAction jsstring)
| setIsLoading (a : SetStateAction bool)
| setError (a : SetStateAction jsstring)
| setHighlightedSuggestion (a : SetStateAction (option jsstring))
| setAttachedFiles (a : SetStateAction (list File))
| setActiveHistoryId (a : SetStateAction jsstring).

Definition apply_update (u : Update) (s : Session) : Session :=
  match u with
  | setMessages a =>
      {| messages := next_value a (messages s); input := input s;
         isLoading := isLoading s; error := error s;
         highlightedSuggestion := highlightedSuggestion s;
         attachedFiles := attachedFiles s; activeHistoryId := activeHistoryId s |}
  | setInput a =>
      {| messages := messages s; input := next_value a (input s);
         isLoading := isLoading s; error := error s;
         highlightedSuggestion := highlightedSuggestion s;
         attachedFiles := attachedFiles s; activeHistoryId := activeHistoryId s |}
  | setIsLoading a =>
      {| messages := messages s; input := input s;
         isLoading := next_value a (isLoading s); error := error s;
         highlightedSuggestion := highlightedSuggestion s;
         attachedFiles := attachedFiles s; activeHistoryId := activeHistoryId s |}
  | setError a =>
      {| messages := messages s; input := input s;
         isLoading := isLoading s; error := next_value a (error s);
         highlightedSuggestion := highlightedSuggestion s;
         attachedFiles := attachedFiles s; activeHistoryId := activeHistoryId s |}
  | setHighlightedSuggestion a =>
      {| messages := messages s; input := input s;
         isLoading := isLoading s; error := error s;
         highlightedSuggestion := next_value a (highlightedSuggestion s);
         attachedFiles := attachedFiles s; activeHistoryId := activeHistoryId s |}
  | setAttachedFiles a =>
      {| messages := messages s; input := input s;
         isLoading := isLoading s; error := error s;
         highlightedSuggestion := highlightedSuggestion s;
         attachedFiles := next_value a (attachedFiles s);
         activeHistoryId := activeHistoryId s |}
  | setActiveHistoryId a =>
      {| messages := messages s; input := input s;
         isLoading := isLoading s; error := error s;
         highlightedSuggestion := highlightedSuggestion s;
         attachedFiles := attachedFiles s;
         activeHistoryId := next_value a (activeHistoryId s) |}
  end.

(** The queued updates of one handler, applied in the order of the calls. *)
Definition apply_updates (us : list Update) (s : Session) : Session :=
  foldl (fun acc u => apply_update u acc) s us.

(** ** Synchronous handlers *)

(** [array.filter((x, idx) => keep(x, idx))], the index counted from [from]. *)
Fixpoint filter_from {A} (keep : A -> Z -> bool) (from : Z) (l : list A) : list A :=
  match l with
  | [] => []
  | x :: rest =>
      if keep x from then x :: filter_from keep (from + 1)%Z rest
      else filter_from keep (from + 1)%Z rest
  end.

Definition Array_filter {A} (keep : A -> Z -> bool) (l : list A) : list A :=
  filter_from keep 0%Z l.

(** When React runs a functional updater: inside the call of the setter
    (its eager path, taken when no other update is pending for the component)
    or at the next render, after the handler has returned.  Which of the two
    it is does not depend on the code of the page. *)
Inductive UpdaterRun :=
| DuringCall
| AtRender.

(** What the live [FileList] of the file input holds when the updater of
    [handleFileChange] reads it.  The handler empties the list right after the
    call of the setter, by [event.target.value = ''], so the selection is still
    there only for an updater run during the call. *)
Definition files_read_by_updater (run : UpdaterRun) (selected : list File) : list File :=
  match run with
  | DuringCall => selected
  | AtRender => []
  end.

(** [handleFileChange]: [files] is what [event.target.files] holds when the
    event is handled, [None] for [null].  The updater does not capture a copy
    of the selection: [Array.from(files)] is evaluated when the updater runs. *)
Definition handleFileChange (run : UpdaterRun) (files : option (list File)) : list Update :=
  match files with
  | None => []
  | Some [] => []
  | Some selected =>
      [setAttachedFiles (Updater (fun prev => prev ++ files_read_by_updater run selected))]
  end.

Definition removeAttachment (index : Z) : list Update :=
  [setAttachedFiles
     (Updater (fun prev => Array_filter (fun _ idx => negb (idx =? index)%Z) prev))].

Definition handleNewChat : list Update :=
  [setMessages (Value [{| role := assistant; content := JString WELCOME_MESSAGE |}]);
   setInput (Value []);
   setError (Value []);
   setAttachedFiles (Value []);
   setHighlightedSuggestion (Value None)].

Definition handleHistorySelect (id : jsstring) : list Update :=
  [setActiveHistoryId (Value id)].

(** ** The asynchronous submission *)

(** What the page takes from its surroundings: the environment variables
    and the message the engine gives the [TypeError] raised when a property
    of [null] is read (it differs between engines). *)
Record Runtime := {
  process_env : ProcessEnv;
  null_read_message : jsstring -> jsstring
}.

(** An [async] function body: it returns, calls a state setter, or awaits
    one of three promises and goes on with the way it settled. *)
Inductive Task :=
| Return
| Dispatch (u : Update) (next : Task)
| AwaitFetch (url : jsstring) (init : RequestInit) (next : Settled Response -> Task)
| AwaitText (response : Response) (next : Settled jsstring -> Task)
| AwaitJson (response : Response) (next : Settled JsVal -> Task).

(** [payload.name] for one of the five reply fields.  Reading a property of
    [null] throws; a primitive or an array has none of these properties. *)
Definition get_property (rt : Runtime) (payload : JsVal) (name : jsstring)
  : Settled (option JsVal) :=
  match payload with
  | JNull => Rejected (ErrorObject (null_read_message rt name))
  | JObject props => Fulfilled (Json.own_property name props)
  | _ => Fulfilled None
  end.

(** [a ?? b]: [b] when [a] is [undefined] or [null]. *)
Definition nullish_or (a : Settled (option JsVal)) (b : Settled JsVal) : Settled JsVal :=
  match a with
  | Rejected e => Rejected e
  | Fulfilled None => b
  | Fulfilled (Some JNull) => b
  | Fulfilled (Some v) => Fulfilled v
  end.

(** [payload.reply ?? payload.answer ?? payload.output ?? payload.response
     ?? payload.message ?? JSON.stringify(payload)] *)
Definition assistantContent (rt : Runtime) (payload : JsVal) : Settled JsVal :=
  nullish_or (get_property rt payload (str "reply"))
    (nullish_or (get_property rt payload (str "answer"))
       (nullish_or (get_property rt payload (str "output"))
          (nullish_or (get_property rt payload (str "response"))
             (nullish_or (get_property rt payload (str "message"))
                (Fulfilled (JString (Json.stringify payload))))))).

(** The functional updater [(prev) => [...prev, m]]. *)
Definition push (m : Message) : SetStateAction (list Message) :=
  Updater (fun prev => prev ++ [m]).

(** [err instanceof Error ? err.message : '...'] *)
Definition error_message (err : Thrown) : jsstring :=
  match err with
  | ErrorObject message => message
  | NotAnError => str "Unable to reach the backend. Please try again."
  end.

(** The [finally] clause. *)
Definition finally_clause : Task :=
  Dispatch (setIsLoading (Value false)) Return.

(** The [catch] clause followed by the [finally] clause. *)
Definition catch_clause (err : Thrown) : Task :=
  Dispatch (setError (Value (error_message err)))
    (Dispatch (setMessages (push {| role := assistant; content := JString APOLOGY |}))
       finally_clause).

Definition requestInit (trimmed : jsstring) (files : list File) : RequestInit :=
  let hasAttachments := (0 <? length files)%nat in
  if hasAttachments then
    {| method := str "POST";
       headers := None;
       body := FormData ((str "prompt", FormString trimmed)
                         :: map (fun file => (str "files", FormFile file)) files) |}
  else
    {| method := str "POST";
       headers := Some [(str "Content-Type", str "application/json")];
       body := StringBody (Json.stringify (JObject [(str "prompt", JString trimmed)])) |}.

(** [submitPrompt(preset)], built from the values of the render [s] its
    closure captured ([input], [isLoading], [attachedFiles]). *)
Definition submitPrompt (rt : Runtime) (preset : option jsstring) (s : Session) : Task :=
  let trimmed := trim (coalesce preset (input s)) in
  if is_empty trimmed || isLoading s then Return
  else
    Dispatch (setError (Value []))
   (Dispatch (setIsLoading (Value true))
   (Dispatch (setMessages (push {| role := user; content := JString trimmed |}))
   (Dispatch (setInput (Value []))
   (AwaitFetch (BACKEND_ENDPOINT (process_env rt)) (requestInit trimmed (attachedFiles s))
      (fun fetched =>
         match fetched with
         | Rejected err => catch_clause err
         | Fulfilled response =>
             if negb (ok response) then
               AwaitText response (fun read =>
                 match read with
                 | Rejected err => catch_clause err
                 | Fulfilled body =>
                     catch_clause
                       (ErrorObject (or_else body (str "Backend responded with an error")))
                 end)
             else
               AwaitJson response (fun parsed =>
                 match parsed with
                 | Rejected err => catch_clause err
                 | Fulfilled payload =>
                     match assistantContent rt payload with
                     | Rejected err => catch_clause err
                     | Fulfilled reply =>
                         Dispatch (setMessages (push {| role := assistant; content := reply |}))
                           (Dispatch (setAttachedFiles (Value []))
                              finally_clause)
                     end
                 end)
         end))))).

(** The click on a suggestion: the highlight is set, then the prompt is
    submitted with the suggestion as preset. *)
Definition selectSuggestion (rt : Runtime) (suggestion : jsstring) (s : Session) : Task :=
  Dispatch (setHighlightedSuggestion (Value (Some suggestion)))
    (submitPrompt rt (Some suggestion) s).

(** [handleSubmit]: the form submits the current input. *)
Definition handleSubmit (rt : Runtime) (s : Session) : Task :=
  submitPrompt rt None s.

(** ** Runs of a task *)

(** What a task does, in order: the updates it dispatches and the promises
    it waits for. *)
Inductive Action :=
| Did (u : Update)
| Fetch (url : jsstring) (init : RequestInit)
| ReadText (response : Response)
| ReadJson (response : Response).

(** The run of a task when [fetch] settles as [net]; the two body promises
    settle as the response says. *)
Fixpoint trace (net : Settled Response) (t : Task) : list Action :=
  match t with
  | Return => []
  | Dispatch u next => Did u :: trace net next
  | AwaitFetch url init next => Fetch url init :: trace net (next net)
  | AwaitText response next => ReadText response :: trace net (next (text response))
  | AwaitJson response next => ReadJson response :: trace net (next (json response))
  end.

Definition updates_of (a : Action) : list Update :=
  match a with Did u => [u] | _ => [] end.

(** The updates dispatched along a stretch of a run. *)
Definition dispatched (run : list Action) : list Update :=
  concat (map updates_of run).

(** The network calls of a run. *)
Definition requests (run : list Action) : list (jsstring * RequestInit) :=
  concat (map (fun a => match a with Fetch url init => [(url, init)] | _ => [] end) run).

(** The state after a stretch of a run, started in state [s]. *)
Definition replay (run : list Action) (s : Session) : Session :=
  apply_updates (dispatched run) s.

(** A whole submission with nothing else happening in between. *)
Definition submit_and_settle (rt : Runtime) (preset : option jsstring)
    (net : Settled Response) (s : Session) : Session :=
  replay (trace net (submitPrompt rt preset s)) s.

(** ** Vocabulary of the statements *)

(** The submission is accepted: the text is not empty once trimmed and no
    submission is in flight. *)
Definition accepted (preset : option jsstring) (s : Session) : Prop :=
  trim (coalesce preset (input s)) <> [] /\ isLoading s = false.

(** How a submission ends when [fetch] settles as [net]: with the reply to
    display, or with what the [catch] clause receives. *)
Definition settlement (rt : Runtime) (net : Settled Response) : Settled JsVal :=
  match net with
  | Rejected err => Rejected err
  | Fulfilled response =>
      if ok response then
        match json response with
        | Rejected err => Rejected err
        | Fulfilled payload => assistantContent rt payload
        end
      else
        match text response with
        | Rejected err => Rejected err
        | Fulfilled body =>
            Rejected (ErrorObject (or_else body (str "Backend responded with an error")))
        end
  end.

(** The updates dispatched before the network call. *)
Definition opening (trimmed : jsstring) : list Update :=
  [setError (Value []);
   setIsLoading (Value true);
   setMessages (push {| role := user; content := JString trimmed |});
   setInput (Value [])].

(** The updates dispatched once the call has settled. *)
Definition closing (outcome : Settled JsVal) : list Update :=
  match outcome with
  | Fulfilled reply =>
      [setMessages (push {| role := assistant; content := reply |});
       setAttachedFiles (Value []);
       setIsLoading (Value false)]
  | Rejected err =>
      [setError (Value (error_message err));
       setMessages (push {| role := assistant; content := JString APOLOGY |});
       setIsLoading (Value false)]
  end.

(** A run made of the updates [before], one call of [fetch], a wait during
    which nothing is dispatched and the network is not called again, and the
    updates [after]. *)
Definition single_flight (run : list Action) (before : list Update)
    (url : jsstring) (init : RequestInit) (after : list Update) : Prop :=
  exists waiting,
    run = map Did before ++ Fetch url init :: waiting ++ map Did after
    /\ dispatched waiting = []
    /\ requests waiting = [].

(** The call failed: no response was obtained, or one whose status is not
    in the range 200-299. *)
Definition failed (net : Settled Response) : Prop :=
  match net with
  | Rejected _ => True
  | Fulfilled response => ok response = false
  end.

(** The submission succeeded: a response in the range 200-299 whose body
    was parsed and gave a reply. *)
Definition succeeded (rt : Runtime) (net : Settled Response) : bool :=
  match settlement rt net with
  | Fulfilled _ => true
  | Rejected _ => false
  end.

(** The error detail of a failed call: the body of the response, a fixed
    text in its place when it is empty, and the message of the error when no
    response or no body was obtained. *)
Definition error_detail (net : Settled Response) : jsstring :=
  match net with
  | Fulfilled response =>
      match text response with
      | Fulfilled [] => str "Backend responded with an error"
      | Fulfilled body => body
      | Rejected err => error_message err
      end
  | Rejected err => error_message err
  end.

(** The five fields probed for the reply, in the order of the source. *)
Definition reply_fields : list jsstring :=
  [str "reply"; str "answer"; str "output"; str "response"; str "message"].

(** The reply as the specification words it: the value of the first of the
    five fields that is present in the payload, and the serialization of the
    payload when none is. *)
Definition spec_reply (payload : JsVal) : JsVal :=
  match payload with
  | JObject props =>
      match omap (fun name => Json.own_property name props) reply_fields with
      | value :: _ => value
      | [] => JString (Json.stringify payload)
      end
  | _ => JString (Json.stringify payload)
  end.

(** The value a payload holds under [name], when it holds one that is not
    [null]. *)
Definition field (payload : JsVal) (name : jsstring) : option JsVal :=
  match payload with
  | JObject props =>
      match Json.own_property name props with
      | Some JNull => None
      | found => found
      end
  | _ => None
  end.

(** A runtime with the message of V8 for a property read on [null]. *)
Definition v8 (env : ProcessEnv) : Runtime := {|
  process_env := env;
  null_read_message := fun name =>
    str "Cannot read properties of null (reading '" ++ name ++ str "')"
|}.

Definition no_env : ProcessEnv :=
  {| NEXT_PUBLIC_BACKEND_URL := None; NEXT_PUBLIC_BACKEND_PATH := None |}.

(** A session in which a submission is in flight. *)
Definition busy_session : Session := apply_update (setIsLoading (Value true)) initial_session.

(** A response with status 500 and the given body, which is not JSON. *)
Definition error_response (body parse_message : jsstring) : Response := {|
  status := 500;
  text := Fulfilled body;
  json := Rejected (ErrorObject parse_message)
|}.

(** A response with status 200 whose body does not parse. *)
Definition unparsable_response (body parse_message : jsstring) : Response := {|
  status := 200;
  text := Fulfilled body;
  json := Rejected (ErrorObject parse_message)
|}.

(** The payload [{reply: null, answer: A}]. *)
Definition null_reply_payload : JsVal :=
  JObject [(str "reply", JNull); (str "answer", JString (str "A"))].

(** The payload [{answer: A, message: M}] of the specification. *)
Definition answer_message_payload : JsVal :=
  JObject [(str "answer", JString (str "A")); (str "message", JString (str "M"))].

(** The first value, in the order of [names], that the payload holds and
    that is not [null]; [fallback] when there is none. *)
Fixpoint first_value (payload : JsVal) (names : list jsstring) (fallback : JsVal)
  : JsVal :=
  match names with
  | [] => fallback
  | name :: rest =>
      match field payload name with
      | Some value => value
      | None => first_value payload rest fallback
      end
  end.

(** A response with status 200 whose body is the serialization of [payload]. *)
Definition json_response (payload : JsVal) : Response := {|
  status := 200;
  text := Fulfilled (Json.stringify payload);
  json := Fulfilled payload
|}.

(** The content of the last message after "Hello" was submitted in the
    initial session and the backend answered [net]. *)
Definition displayed_after_hello (net : Settled Response) : option Message :=
  last (messages (submit_and_settle (v8 no_env) (Some (str "Hello")) net initial_session)).

(** The session [s] with another list of staged files. *)
Definition with_attachedFiles (files : list File) (s : Session) : Session :=
  apply_update (setAttachedFiles (Value files)) s.

(** ** The page as an event loop *)

(** Runs a task until it returns or suspends on a promise: the state
    reached and what is left of the task. *)
Fixpoint run_until_await (t : Task) (s : Session) : Session * Task :=
  match t with
  | Dispatch u next => run_until_await next (apply_update u s)
  | _ => (s, t)
  end.

(** The page between two events: the rendered state and the submissions
    suspended on a promise. *)
Record Page := {
  rendered : Session;
  suspended : list Task
}.

Definition initial_page : Page := {| rendered := initial_session; suspended := [] |}.

(** What can happen to the page: the user acts on one of its controls, or
    the promise a suspended submission waits for settles ([net] is the
    settlement of [fetch]; the body promises settle as their response says).
    A selection of files comes with the moment React runs its updater. *)
Inductive Event :=
| InputChanged (value : jsstring)
| FilesSelected (files : option (list File)) (run : UpdaterRun)
| AttachmentRemoved (index : Z)
| NewChatClicked
| HistorySelected (id : jsstring)
| SuggestionClicked (suggestion : jsstring)
| FormSubmitted
| PromiseSettled (n : nat) (net : Settled Response).

Definition sync (us : list Update) (p : Page) : Page :=
  {| rendered := apply_updates us (rendered p); suspended := suspended p |}.

Definition start (t : Task) (p : Page) : Page :=
  let '(s, rest) := run_until_await t (rendered p) in
  {| rendered := s;
     suspended := match rest with
                  | Return => suspended p
                  | _ => suspended p ++ [rest]
                  end |}.

(** The task after the promise it waits for has settled. *)
Definition continue (t : Task) (net : Settled Response) : Task :=
  match t with
  | AwaitFetch _ _ next => next net
  | AwaitText response next => next (text response)
  | AwaitJson response next => next (json response)
  | other => other
  end.

Definition settle (n : nat) (net : Settled Response) (p : Page) : Page :=
  match suspended p !! n with
  | None => p
  | Some t =>
      let '(s, rest) := run_until_await (continue t net) (rendered p) in
      {| rendered := s;
         suspended := match rest with
                      | Return => delete n (suspended p)
                      | _ => <[n := rest]> (suspended p)
                      end |}
  end.

Definition handle (rt : Runtime) (e : Event) (p : Page) : Page :=
  match e with
  | InputChanged value => sync [setInput (Value value)] p
  | FilesSelected files run => sync (handleFileChange run files) p
  | AttachmentRemoved index => sync (removeAttachment index) p
  | NewChatClicked => sync handleNewChat p
  | HistorySelected id => sync (handleHistorySelect id) p
  | SuggestionClicked suggestion => start (selectSuggestion rt suggestion (rendered p)) p
  | FormSubmitted => start (handleSubmit rt (rendered p)) p
  | PromiseSettled n net => settle n net p
  end.

Definition play (rt : Runtime) (events : list Event) (p : Page) : Page :=
  foldl (fun page e => handle rt e page) p events.

(** A suspended task that, however its promises settle, dispatches nothing
    until it dispatches the closing updates of some outcome and returns. *)
Fixpoint closes_once (t : Task) : Prop :=
  match t with
  | Return => False
  | Dispatch _ _ =>
      exists outcome,
        forall s, run_until_await t s = (apply_updates (closing outcome) s, Return)
  | AwaitFetch _ _ next => forall fetched, closes_once (next fetched)
  | AwaitText _ next => forall read, closes_once (next read)
  | AwaitJson _ next => forall parsed, closes_once (next parsed)
  end.

Definition is_suspended (t : Task) : bool :=
  match t with
  | Return | Dispatch _ _ => false
  | _ => true
  end.

(** Single flight: the loading flag is set exactly while one submission is
    suspended, and there is never more than one. *)
Definition single_flight_page (p : Page) : Prop :=
  suspended p = [] /\ isLoading (rendered p) = false
  \/ exists t,
       suspended p = [t] /\ is_suspended t = true /\ closes_once t
       /\ isLoading (rendered p) = true.

(** ** What the page displays *)

(** The decimal digits of a non-negative integer, as [Number::toString]
    writes them. *)
Definition decimal (n : N) : jsstring := str (NilZero.string_of_uint (N.to_uint n)).

(** The number of tenths [x.toFixed(1)] displays for [x = size / divisor]:
    the integer [n] closest to [10 * x], the larger one when two are as
    close.  In the page [size] is the size of a file, an integer below
    [2^53], and [divisor] a power of two, so the quotient the source computes
    in floating point is the exact one. *)
Definition tenths (size divisor : N) : N := (20 * size + divisor) / (2 * divisor).

(** [(size / divisor).toFixed(1)], for [size] below [2^53] and [divisor] one
    of the two powers of two of [formatFileSize].  For larger numbers the
    source may lose digits and switches to the exponent notation; this
    definition does not describe them. *)
Definition toFixed1 (size divisor : N) : jsstring :=
  decimal (tenths size divisor / 10) ++ str "." ++ decimal (tenths size divisor mod 10).

(** [formatFileSize(size)], for the size of a file, an integer below [2^53]. *)
Definition formatFileSize (size : N) : jsstring :=
  if size <? 1024 then decimal size ++ str " B"
  else if size <? 1024 * 1024 then toFixed1 size 1024 ++ str " KB"
  else toFixed1 size (1024 * 1024) ++ str " MB".

(** What is left of [s] after [prefix], when [s] starts with it. *)
Fixpoint strip_prefix (prefix s : jsstring) : option jsstring :=
  match prefix, s with
  | [], _ => Some s
  | p :: prefix', c :: s' => if p =? c then strip_prefix prefix' s' else None
  | _ :: _, [] => None
  end.

(** [s.replace(/^https?:\/\//, '')]: the pattern matches at the start only,
    with the [s] when it is there. *)
Definition strip_scheme (s : jsstring) : jsstring :=
  match strip_prefix (str "https://") s with
  | Some rest => rest
  | None =>
      match strip_prefix (str "http://") s with
      | Some rest => rest
      | None => s
      end
  end.

Definition endpointDisplay (env : ProcessEnv) : jsstring :=
  strip_scheme (BACKEND_ENDPOINT env).

(** The [disabled] attribute of the Send button: [isLoading || !input.trim()]. *)
Definition send_disabled (s : Session) : bool :=
  isLoading s || is_empty (trim (input s)).

Record HistorySession := {
  hs_id : jsstring;
  hs_title : jsstring;
  hs_channel : jsstring;
  hs_updated : jsstring;
  hs_summary : jsstring
}.

Definition HISTORY_SESSIONS : list HistorySession :=
  [{| hs_id := str "deployment";
      hs_title := str "CI/CD deployment review";
      hs_channel := str "nextjs-app-dev";
      hs_updated := str "5 minutes ago";
      hs_summary := str "Walked through the GitHub Actions build/push to nerfastapiacr and verified the dev container app." |};
   {| hs_id := str "interface";
      hs_title := str "Gemini UI playtest";
      hs_channel := str "front-end dev";
      hs_updated := str "1 hour ago";
      hs_summary := str "Experimented with glassmorphic chat styling, suggestions, and attachment handling before dispatch." |};
   {| hs_id := str "backend";
      hs_title := str "FastAPI conversation log";
      hs_channel := str "FastAPI backend";
      hs_updated := str "Yesterday";
      hs_summary := str "Confirmed the multipart upload endpoint, response payload shapes, and added error messaging." |}].

(** [HISTORY_SESSIONS.find((session) => session.id === activeHistoryId)] *)
Definition activeHistory (s : Session) : option HistorySession :=
  List.find (fun session => Json.eqb (hs_id session) (activeHistoryId s)) HISTORY_SESSIONS.

Definition PROMPT_SUGGESTIONS : list jsstring :=
  [str "Explain how the CI/CD pipeline deploys to Azure Container Apps.";
   str "Show me the health of the nerfastapiacr registry and nextjs-app-dev.";
   str "What should I send to the FastAPI backend to generate a response?"].

(** ** The variant of the page without attachments *)

Module Plain.

(** [submitPrompt] of the second variant of the page: the request is always
    the JSON one and the staged files, which that page does not have, are
    never touched. *)
Definition submitPrompt (rt : Runtime) (preset : option jsstring) (s : Session) : Task :=
  let trimmed := trim (coalesce preset (input s)) in
  if is_empty trimmed || isLoading s then Return
  else
    Dispatch (setError (Value []))
   (Dispatch (setIsLoading (Value true))
   (Dispatch (setMessages (push {| role := user; content := JString trimmed |}))
   (Dispatch (setInput (Value []))
   (AwaitFetch (BACKEND_ENDPOINT (process_env rt))
      {| method := str "POST";
         headers := Some [(str "Content-Type", str "application/json")];
         body := StringBody (Json.stringify (JObject [(str "prompt", JString trimmed)])) |}
      (fun fetched =>
         match fetched with
         | Rejected err => catch_clause err
         | Fulfilled response =>
             if negb (ok response) then
               AwaitText response (fun read =>
                 match read with
                 | Rejected err => catch_clause err
                 | Fulfilled body =>
                     catch_clause
                       (ErrorObject (or_else body (str "Backend responded with an error")))
                 end)
             else
               AwaitJson response (fun parsed =>
                 match parsed with
                 | Rejected err => catch_clause err
                 | Fulfilled payload =>
                     match assistantContent rt payload with
                     | Rejected err => catch_clause err
                     | Fulfilled reply =>
                         Dispatch (setMessages (push {| role := assistant; content := reply |}))
                           finally_clause
                     end
                 end)
         end))))).

End Plain.

(** ** Vocabulary of the further statements *)

(** [2^53], the first integer from which a double no longer holds every
    integer. *)
Definition MAX_EXACT_SIZE : N := 9007199254740992.

(** Whether React can render [value] as a child of an element, as the page
    does in [<p>{message.content}</p>]: a string or a number is text, a
    boolean or [null] is nothing, an array is its items one after the other;
    for a plain object React throws, and the page has no error boundary. *)
Fixpoint renderable (value : JsVal) : bool :=
  match value with
  | JObject _ => false
  | JArray items => forallb renderable items
  | _ => true
  end.

(** The transcript of the session can be rendered. *)
Definition transcript_renders (s : Session) : bool :=
  forallb (fun message => renderable (content message)) (messages s).

(** The assistant message of the way the call settled can be rendered. *)
Definition outcome_renders (rt : Runtime) (net : Settled Response) : bool :=
  match settlement rt net with
  | Fulfilled reply => renderable reply
  | Rejected _ => true
  end.

(** The task an accepted submission leaves suspended on [fetch]. *)
Definition pending_fetch (rt : Runtime) (preset : option jsstring) (s : Session) : Task :=
  snd (run_until_await (submitPrompt rt preset s) s).

(** The action is a call of [setAttachedFiles]. *)
Definition touches_attachedFiles (a : Action) : bool :=
  match a with
  | Did (setAttachedFiles _) => true
  | _ => false
  end.

(** The first code unit of a string is not white space, nor is the last. *)
Definition no_outer_white_space (s : jsstring) : Prop :=
  match s with c :: _ => is_white_space c = false | [] => True end
  /\ match last s with Some c => is_white_space c = false | None => True end.

(** No submission is suspended. *)
Definition idle_page (p : Page) : Prop := suspended p = [].

(** * Properties *)

(** ** Runs and updates *)

Lemma dispatched_app (r1 r2 : list Action) :
  dispatched (r1 ++ r2) = dispatched r1 ++ dispatched r2.
Proof. unfold dispatched. now rewrite map_app, concat_app. Qed.

Lemma requests_app (r1 r2 : list Action) :
  requests (r1 ++ r2) = requests r1 ++ requests r2.
Proof. unfold requests. now rewrite map_app, concat_app. Qed.

Lemma dispatched_Did (us : list Update) : dispatched (map Did us) = us.
Proof.
  induction us as [|u us IH]; [reflexivity|].
  change (dispatched (map Did (u :: us))) with (u :: dispatched (map Did us)).
  now rewrite IH.
Qed.

Lemma requests_Did (us : list Update) : requests (map Did us) = [].
Proof. induction us as [|u us IH]; [reflexivity | exact IH]. Qed.

Lemma apply_updates_app (us vs : list Update) (s : Session) :
  apply_updates (us ++ vs) s = apply_updates vs (apply_updates us s).
Proof. unfold apply_updates. apply foldl_app. Qed.

Lemma replay_app (r1 r2 : list Action) (s : Session) :
  replay (r1 ++ r2) s = replay r2 (replay r1 s).
Proof. unfold replay. now rewrite dispatched_app, apply_updates_app. Qed.

(** A single-flight run calls the network once and its effect on the
    state is the one of [before] followed by [after]. *)
Lemma single_flight_requests run before url init after :
  single_flight run before url init after -> requests run = [(url, init)].
Proof.
  intros (waiting & -> & _ & Hreq).
  rewrite requests_app, requests_Did. cbn [app].
  change (requests (Fetch url init :: waiting ++ map Did after))
    with ((url, init) :: requests (waiting ++ map Did after)).
  now rewrite requests_app, Hreq, requests_Did.
Qed.

Lemma single_flight_dispatched run before url init after :
  single_flight run before url init after -> dispatched run = before ++ after.
Proof.
  intros (waiting & -> & Hdis & _).
  rewrite dispatched_app, dispatched_Did.
  change (dispatched (Fetch url init :: waiting ++ map Did after))
    with (dispatched (waiting ++ map Did after)).
  now rewrite dispatched_app, Hdis, dispatched_Did.
Qed.

Lemma single_flight_replay run before url init after s :
  single_flight run before url init after ->
  replay run s = apply_updates after (apply_updates before s).
Proof.
  intros H. unfold replay.
  now rewrite (single_flight_dispatched _ _ _ _ _ H), apply_updates_app.
Qed.

(** ** The shape of a submission *)

Lemma is_empty_false (s : jsstring) : s <> [] -> is_empty s = false.
Proof. now destruct s. Qed.

Lemma is_empty_true (s : jsstring) : s = [] -> is_empty s = true.
Proof. now intros ->. Qed.

(** An accepted submission is a single-flight run: the opening updates, the
    request, and the closing updates of the way it settles. *)
Lemma submitPrompt_run rt preset s net :
  accepted preset s ->
  single_flight (trace net (submitPrompt rt preset s))
    (opening (trim (coalesce preset (input s))))
    (BACKEND_ENDPOINT (process_env rt))
    (requestInit (trim (coalesce preset (input s))) (attachedFiles s))
    (closing (settlement rt net)).
Proof.
  intros [Htext Hidle]. unfold submitPrompt, single_flight.
  rewrite (is_empty_false _ Htext), Hidle. cbn [orb].
  destruct net as [response|err]; cbn [trace settlement].
  - destruct (ok response) eqn:Hok; cbn [negb trace].
    + exists [ReadJson response].
      destruct (json response) as [payload|err]; cbn [trace].
      * destruct (assistantContent rt payload) as [reply|err]; repeat split.
      * repeat split.
    + exists [ReadText response].
      destruct (text response) as [body|err]; repeat split.
  - exists []. repeat split.
Qed.

(** A refused submission does nothing at all. *)
Lemma submitPrompt_refused rt preset s :
  isLoading s = true \/ trim (coalesce preset (input s)) = [] ->
  submitPrompt rt preset s = Return.
Proof.
  unfold submitPrompt. intros [Hbusy | Hempty].
  - rewrite Hbusy. now rewrite orb_true_r.
  - now rewrite (is_empty_true _ Hempty).
Qed.

Lemma messages_opening trimmed s0 :
  messages (apply_updates (opening trimmed) s0)
  = messages s0 ++ [{| role := user; content := JString trimmed |}].
Proof. reflexivity. Qed.

(** Whatever the outcome, the closing updates append one assistant message. *)
Lemma messages_closing outcome :
  exists reply,
    role reply = assistant
    /\ forall s1, messages (apply_updates (closing outcome) s1) = messages s1 ++ [reply].
Proof.
  destruct outcome as [reply|err].
  - exists {| role := assistant; content := reply |}. now split.
  - exists {| role := assistant; content := JString APOLOGY |}. now split.
Qed.

(** Each update of a submission keeps the messages already there, in their
    order, at the front. *)
Lemma opening_extends trimmed :
  Forall (fun u => forall s2, messages s2 `prefix_of` messages (apply_update u s2))
    (opening trimmed).
Proof.
  repeat constructor; intros s2; cbn [apply_update messages next_value push];
    first [reflexivity | now eexists].
Qed.

Lemma closing_extends outcome :
  Forall (fun u => forall s2, messages s2 `prefix_of` messages (apply_update u s2))
    (closing outcome).
Proof.
  destruct outcome; repeat constructor; intros s2;
    cbn [apply_update messages next_value push]; first [reflexivity | now eexists].
Qed.

(** ** Submission: messages and single flight *)

(** C1: a submission whose trimmed text is not empty, made while none is in
    flight, appends exactly one user message holding the trimmed text before
    it calls the network, dispatches nothing while it waits, and appends
    exactly one assistant message once the call has settled, however it
    settled; each time the messages already there are kept, in their order,
    in front of the new one. *)
Theorem submit_appends_one_user_then_one_assistant rt preset s net :
  accepted preset s ->
  exists before url init after reply,
    single_flight (trace net (submitPrompt rt preset s)) before url init after
    /\ (forall s0,
          messages (apply_updates before s0)
          = messages s0
            ++ [{| role := user; content := JString (trim (coalesce preset (input s))) |}])
    /\ role reply = assistant
    /\ (forall s1, messages (apply_updates after s1) = messages s1 ++ [reply])
    /\ Forall (fun u => forall s2, messages s2 `prefix_of` messages (apply_update u s2))
         (before ++ after).
Proof.
  intros Hacc.
  destruct (messages_closing (settlement rt net)) as (reply & Hrole & Hafter).
  exists (opening (trim (coalesce preset (input s)))),
    (BACKEND_ENDPOINT (process_env rt)),
    (requestInit (trim (coalesce preset (input s))) (attachedFiles s)),
    (closing (settlement rt net)), reply.
  split; [now apply submitPrompt_run|].
  split; [intros s0; apply messages_opening|].
  split; [exact Hrole|].
  split; [exact Hafter|].
  apply Forall_app. split; [apply opening_extends | apply closing_extends].
Qed.

(** C2: while the loading flag is set, and likewise when the text is empty
    once trimmed, [submitPrompt] returns at once: it dispatches no update (so
    no user message), calls the network not at all and leaves the session as
    it was. *)
Theorem submit_refused_does_nothing rt preset s net :
  isLoading s = true \/ trim (coalesce preset (input s)) = [] ->
  dispatched (trace net (submitPrompt rt preset s)) = []
  /\ requests (trace net (submitPrompt rt preset s)) = []
  /\ submit_and_settle rt preset net s = s.
Proof.
  intros Hrefused. unfold submit_and_settle.
  rewrite (submitPrompt_refused rt preset s Hrefused).
  now repeat split.
Qed.

(** ** The request *)

(** C4: an accepted submission calls the network exactly once, at the
    resolved endpoint, with method POST; when files are staged the body is a
    form whose [prompt] entry is the trimmed text followed by one [files]
    entry per staged file, and no header is given; when none is staged the
    body is the serialization of the object with the single property [prompt]
    holding the trimmed text, and the header [Content-Type] is
    [application/json]. *)
Theorem request_has_one_of_two_shapes rt preset s net :
  accepted preset s ->
  let trimmed := trim (coalesce preset (input s)) in
  requests (trace net (submitPrompt rt preset s))
  = [(BACKEND_ENDPOINT (process_env rt),
      match attachedFiles s with
      | [] =>
          {| method := str "POST";
             headers := Some [(str "Content-Type", str "application/json")];
             body := StringBody
                       (Json.stringify (JObject [(str "prompt", JString trimmed)])) |}
      | _ :: _ =>
          {| method := str "POST";
             headers := None;
             body := FormData
                       ((str "prompt", FormString trimmed)
                        :: map (fun file => (str "files", FormFile file))
                             (attachedFiles s)) |}
      end)].
Proof.
  intros Hacc trimmed.
  rewrite (single_flight_requests _ _ _ _ _ (submitPrompt_run rt preset s net Hacc)).
  fold trimmed. unfold requestInit.
  now destruct (attachedFiles s).
Qed.

(** ** New chat *)

(** C8: whatever the session was, after [handleNewChat] the messages are the
    single assistant welcome message and the input, the error, the staged
    files and the highlighted suggestion are empty. *)
Theorem new_chat_resets_session (s : Session) :
  let s' := apply_updates handleNewChat s in
  messages s' = [{| role := assistant; content := JString WELCOME_MESSAGE |}]
  /\ input s' = []
  /\ error s' = []
  /\ attachedFiles s' = []
  /\ highlightedSuggestion s' = None.
Proof. now repeat split. Qed.

(** ** Staged attachments *)

Lemma with_attachedFiles_same (s : Session) : with_attachedFiles (attachedFiles s) s = s.
Proof. now destruct s. Qed.

(** Filtering out the index [index] deletes that one position. *)
Lemma filter_from_delete {A} (index from : Z) (l : list A) :
  filter_from (fun _ idx => negb (idx =? index)%Z) from l
  = if (from <=? index)%Z then delete (Z.to_nat (index - from)) l else l.
Proof.
  revert from. induction l as [|x l IH]; intros from; cbn [filter_from].
  - now destruct (from <=? index)%Z.
  - rewrite IH. destruct (Z.eqb_spec from index) as [->|Hne]; cbn [negb].
    + rewrite Z.sub_diag, Z.leb_refl. cbn [Z.to_nat].
      replace (index + 1 <=? index)%Z with false by lia. reflexivity.
    + destruct (Z.leb_spec from index) as [Hle|Hgt].
      * replace (from + 1 <=? index)%Z with true by lia.
        replace (Z.to_nat (index - from)) with (S (Z.to_nat (index - (from + 1)))) by lia.
        reflexivity.
      * replace (from + 1 <=? index)%Z with false by lia. reflexivity.
Qed.

(** C9: what the code does with a selection of files depends on when
    React runs the updater.  Run during the call of the setter, it appends
    the selected files after the files already staged; run at the next
    render, it reads the list of the input after the handler has emptied it
    and stages nothing, leaving the session as it was.  An empty selection
    dispatches nothing.  [removeAttachment index] deletes the file at position
    [index], keeping the others in their order, and leaves the session as it
    was when [index] is not a position of the staged list; two files staged
    on an empty list by an updater run during the call, index 0 removed,
    leave the second one. *)
Theorem staging_appends_only_when_run_during_the_call (s : Session) :
  (forall selected,
     apply_updates (handleFileChange DuringCall (Some selected)) s
     = with_attachedFiles (attachedFiles s ++ selected) s)
  /\ (forall selected, apply_updates (handleFileChange AtRender (Some selected)) s = s)
  /\ (forall run, handleFileChange run (Some []) = [] /\ handleFileChange run None = [])
  /\ (forall index,
        apply_updates (removeAttachment index) s
        = if (0 <=? index)%Z && (index <? Z.of_nat (length (attachedFiles s)))%Z
          then with_attachedFiles
                 (take (Z.to_nat index) (attachedFiles s)
                  ++ drop (S (Z.to_nat index)) (attachedFiles s)) s
          else s)
  /\ (forall first second,
        attachedFiles
          (apply_updates (removeAttachment 0)
             (apply_updates (handleFileChange DuringCall (Some [first; second]))
                (with_attachedFiles [] s)))
        = [second]).
Proof.
  split; [|split; [|split; [now split|split]]].
  - intros [|f selected].
    + rewrite app_nil_r. symmetry. apply with_attachedFiles_same.
    + reflexivity.
  - intros [|f selected]; [reflexivity|].
    change (with_attachedFiles (attachedFiles s ++ []) s = s).
    rewrite app_nil_r. apply with_attachedFiles_same.
  - intros index.
    change (apply_updates (removeAttachment index) s)
      with (with_attachedFiles
              (filter_from (fun _ idx => negb (idx =? index)%Z) 0 (attachedFiles s)) s).
    rewrite filter_from_delete, Z.sub_0_r.
    destruct (Z.leb_spec 0 index) as [Hle|Hlt]; cbn [andb].
    + destruct (Z.ltb_spec index (Z.of_nat (length (attachedFiles s)))) as [Hin|Hout].
      * now rewrite delete_take_drop.
      * rewrite delete_take_drop, take_ge, drop_ge, app_nil_r by lia.
        apply with_attachedFiles_same.
    + apply with_attachedFiles_same.
  - reflexivity.
Qed.

(** ** Failures *)

Lemma failed_settlement rt net :
  failed net -> settlement rt net = Rejected (ErrorObject (error_detail net))
                \/ settlement rt net = Rejected NotAnError /\ error_detail net = error_message NotAnError.
Proof.
  destruct net as [response|err]; cbn [failed settlement error_detail].
  - intros ->. destruct (text response) as [[|c body]|[message|]]; auto.
  - intros _. destruct err; auto.
Qed.

Lemma closing_rejected err s1 :
  apply_updates (closing (Rejected err)) s1
  = {| messages := messages s1 ++ [{| role := assistant; content := JString APOLOGY |}];
       input := input s1;
       isLoading := false;
       error := error_message err;
       highlightedSuggestion := highlightedSuggestion s1;
       attachedFiles := attachedFiles s1;
       activeHistoryId := activeHistoryId s1 |}.
Proof. reflexivity. Qed.

(** C5: when the call fails, by a response outside 200-299 or by no
    response at all, the submission calls the network once (no retry) and
    settles by appending the one assistant message with the fixed apology,
    by putting the error detail in the error slot (the body of the response,
    a fixed text when the body is empty, the message of the error when there
    is no response) and by clearing the loading flag; the appended message is
    the same whatever the detail is, and the opening updates of a submission
    empty the error slot. *)
Theorem failure_appends_apology_and_surfaces_error rt preset s net :
  accepted preset s ->
  failed net ->
  exists before url init after,
    single_flight (trace net (submitPrompt rt preset s)) before url init after
    /\ requests (trace net (submitPrompt rt preset s)) = [(url, init)]
    /\ (forall s0, error (apply_updates before s0) = [])
    /\ (forall s1,
          apply_updates after s1
          = {| messages :=
                 messages s1 ++ [{| role := assistant; content := JString APOLOGY |}];
               input := input s1;
               isLoading := false;
               error := error_detail net;
               highlightedSuggestion := highlightedSuggestion s1;
               attachedFiles := attachedFiles s1;
               activeHistoryId := activeHistoryId s1 |}).
Proof.
  intros Hacc Hfailed.
  pose proof (submitPrompt_run rt preset s net Hacc) as Hrun.
  eexists _, _, _, _. split; [exact Hrun|].
  split; [exact (single_flight_requests _ _ _ _ _ Hrun)|].
  split; [reflexivity|].
  intros s1.
  destruct (failed_settlement rt net Hfailed) as [-> | [-> ->]];
    apply closing_rejected.
Qed.

(** C10: a response in the range 200-299 whose body does not parse as JSON
    ([json()] rejects with the parse error) is settled as a failure: the
    apology is appended, the message of the parse error goes to the error
    slot, the loading flag is cleared and the staged files stay. *)
Theorem unparsable_body_takes_failure_path rt preset s response parse_message :
  accepted preset s ->
  ok response = true ->
  json response = Rejected (ErrorObject parse_message) ->
  exists before url init after,
    single_flight (trace (Fulfilled response) (submitPrompt rt preset s))
      before url init after
    /\ (forall s1,
          apply_updates after s1
          = {| messages :=
                 messages s1 ++ [{| role := assistant; content := JString APOLOGY |}];
               input := input s1;
               isLoading := false;
               error := parse_message;
               highlightedSuggestion := highlightedSuggestion s1;
               attachedFiles := attachedFiles s1;
               activeHistoryId := activeHistoryId s1 |}).
Proof.
  intros Hacc Hok Hjson.
  pose proof (submitPrompt_run rt preset s (Fulfilled response) Hacc) as Hrun.
  eexists _, _, _, _. split; [exact Hrun|].
  intros s1. cbn [settlement]. rewrite Hok, Hjson. apply closing_rejected.
Qed.

(** ** Clearing of the staged files *)

Lemma failed_not_succeeded rt net : failed net -> succeeded rt net = false.
Proof.
  intros Hfailed. unfold succeeded.
  now destruct (failed_settlement rt net Hfailed) as [-> | [-> _]].
Qed.

(** C7: the updates of a submission touch the staged files only when it
    succeeds: the opening updates leave them as they are, and the closing
    updates empty them when a reply was obtained and leave them as they are
    otherwise, in particular when the call failed. *)
Theorem attachments_cleared_exactly_on_success rt preset s net :
  accepted preset s ->
  exists before url init after,
    single_flight (trace net (submitPrompt rt preset s)) before url init after
    /\ (forall s0, attachedFiles (apply_updates before s0) = attachedFiles s0)
    /\ (forall s1,
          attachedFiles (apply_updates after s1)
          = if succeeded rt net then [] else attachedFiles s1)
    /\ (failed net -> succeeded rt net = false).
Proof.
  intros Hacc.
  pose proof (submitPrompt_run rt preset s net Hacc) as Hrun.
  eexists _, _, _, _. split; [exact Hrun|].
  split; [reflexivity|].
  split; [|apply failed_not_succeeded].
  intros s1. unfold succeeded. now destruct (settlement rt net).
Qed.

(** ** Extraction of the reply *)

Lemma nullish_or_field rt payload name rest :
  payload <> JNull ->
  nullish_or (get_property rt payload name) rest
  = match field payload name with
    | Some value => Fulfilled value
    | None => rest
    end.
Proof.
  intros Hnot_null. destruct payload as [| | | | |props]; try reflexivity.
  - contradiction.
  - cbn [get_property field nullish_or].
    now destruct (Json.own_property name props) as [[]|].
Qed.

Lemma assistantContent_first_value rt payload :
  payload <> JNull ->
  assistantContent rt payload
  = Fulfilled (first_value payload reply_fields (JString (Json.stringify payload))).
Proof.
  intros Hnot_null. unfold assistantContent, reply_fields.
  rewrite !(nullish_or_field rt payload _ _ Hnot_null). cbn [first_value].
  repeat (match goal with |- context [field payload ?n] => destruct (field payload n) end;
          try reflexivity).
Qed.

Lemma first_value_found payload earlier name later value fallback :
  Forall (fun n => field payload n = None) earlier ->
  field payload name = Some value ->
  first_value payload (earlier ++ name :: later) fallback = value.
Proof.
  intros Hearlier Hname. induction Hearlier as [|n earlier Hn _ IH]; cbn [first_value app].
  - now rewrite Hname.
  - now rewrite Hn.
Qed.

Lemma first_value_fallback payload names fallback :
  Forall (fun n => field payload n = None) names ->
  first_value payload names fallback = fallback.
Proof.
  induction 1 as [|n names Hn _ IH]; cbn [first_value]; [reflexivity|].
  now rewrite Hn.
Qed.

(** C3, as amended: on a response in the range 200-299 whose parsed
    payload is not [null], the submission appends, after the user message, an
    assistant message whose content is the value of the first of the fields
    reply, answer, output, response, message, in that order, that the payload
    holds with a value other than [null]; when it holds none of them with
    such a value, the content is the JSON serialization of the payload. *)
Theorem reply_is_first_field_with_a_value rt preset s response payload :
  accepted preset s ->
  ok response = true ->
  json response = Fulfilled payload ->
  payload <> JNull ->
  exists reply,
    messages (submit_and_settle rt preset (Fulfilled response) s)
    = messages s
      ++ [{| role := user; content := JString (trim (coalesce preset (input s))) |};
          {| role := assistant; content := reply |}]
    /\ (forall earlier name later value,
          reply_fields = earlier ++ name :: later ->
          Forall (fun n => field payload n = None) earlier ->
          field payload name = Some value ->
          reply = value)
    /\ (Forall (fun n => field payload n = None) reply_fields ->
        reply = JString (Json.stringify payload)).
Proof.
  intros Hacc Hok Hjson Hnot_null.
  exists (first_value payload reply_fields (JString (Json.stringify payload))).
  split; [|split].
  - unfold submit_and_settle.
    rewrite (single_flight_replay _ _ _ _ _ s
               (submitPrompt_run rt preset s (Fulfilled response) Hacc)).
    cbn [settlement]. rewrite Hok, Hjson, (assistantContent_first_value rt payload Hnot_null).
    cbn. now rewrite <- app_assoc.
  - intros earlier name later value -> Hearlier Hname.
    now apply first_value_found.
  - apply first_value_fallback.
Qed.

(** Counterexample to C3 as stated.  The payload with [reply] holding
    [null] and [answer] holding "A" has the field [reply], yet "A" is
    displayed and not the value of [reply]; the payload [null] has none of the
    five fields, yet the apology is displayed and not its serialization. *)
Lemma reply_skips_null_field_and_null_payload :
  (Json.has_property (str "reply") null_reply_payload = true
   /\ displayed_after_hello (Fulfilled (json_response null_reply_payload))
      = Some {| role := assistant; content := JString (str "A") |}
   /\ displayed_after_hello (Fulfilled (json_response null_reply_payload))
      <> Some {| role := assistant; content := spec_reply null_reply_payload |})
  /\ (Forall (fun name => Json.has_property name JNull = false) reply_fields
      /\ displayed_after_hello (Fulfilled (json_response JNull))
         = Some {| role := assistant; content := JString APOLOGY |}
      /\ displayed_after_hello (Fulfilled (json_response JNull))
         <> Some {| role := assistant; content := spec_reply JNull |}).
Proof.
  split; (split; [|split]).
  - reflexivity.
  - reflexivity.
  - vm_compute. discriminate.
  - repeat constructor.
  - reflexivity.
  - vm_compute. discriminate.
Qed.

(** The two payloads the specification gives as examples. *)
Example reply_earlier_field_wins :
  displayed_after_hello (Fulfilled (json_response answer_message_payload))
  = Some {| role := assistant; content := JString (str "A") |}.
Proof. reflexivity. Qed.

Example reply_falls_back_to_serialization :
  displayed_after_hello
    (Fulfilled (json_response (JObject [(str "foo", JString (str "bar"))])))
  = Some {| role := assistant;
            content := JString (str "{" ++ [34] ++ str "foo" ++ [34] ++ str ":"
                                ++ [34] ++ str "bar" ++ [34] ++ str "}") |}.
Proof. reflexivity. Qed.

(** ** Resolution of the endpoint *)

Lemma is_slash_eq (c : code_unit) : is_slash c = true -> c = slash.
Proof. unfold is_slash. apply N.eqb_eq. Qed.

Lemma all_slashes (s : jsstring) :
  forallb is_slash s = true -> s = replicate (length s) slash.
Proof.
  induction s as [|c s IH]; cbn [forallb length replicate]; [reflexivity|].
  intros [Hc Hs]%andb_prop. now rewrite <- (IH Hs), (is_slash_eq c Hc).
Qed.

Lemma forallb_replicate_slash (n : nat) : forallb is_slash (replicate n slash) = true.
Proof. induction n as [|n IH]; [reflexivity | exact IH]. Qed.

(** The replacement removes a run of slashes at the end, and only that. *)
Lemma replace_trailing_slashes_suffix (s : jsstring) :
  exists n, s = replace_trailing_slashes s ++ replicate n slash.
Proof.
  induction s as [|c s [n IH]]; [now exists 0%nat|].
  cbn [replace_trailing_slashes].
  destruct (is_slash c && forallb is_slash s) eqn:Hall.
  - exists (S (length s)). apply andb_prop in Hall as [Hc Hs].
    cbn [app replicate]. now rewrite <- (all_slashes s Hs), (is_slash_eq c Hc).
  - exists n. cbn [app]. now rewrite <- IH.
Qed.

(** What is left does not end with a slash. *)
Lemma replace_trailing_slashes_end (s : jsstring) :
  ends_with_slash (replace_trailing_slashes s) = false.
Proof.
  unfold ends_with_slash.
  induction s as [|c s IH]; [reflexivity|].
  cbn [replace_trailing_slashes].
  destruct (is_slash c && forallb is_slash s) eqn:Hall; [reflexivity|].
  destruct (replace_trailing_slashes s) as [|d kept] eqn:Hkept.
  - cbn [last]. destruct (is_slash c) eqn:Hc; [|reflexivity].
    destruct (replace_trailing_slashes_suffix s) as [n Hn].
    rewrite Hkept in Hn. cbn [app] in Hn.
    rewrite Hn, forallb_replicate_slash in Hall. discriminate.
  - exact IH.
Qed.

Lemma drop_leading_slashes_id (s : jsstring) :
  startsWith_slash s = false -> drop_leading_slashes s = s.
Proof. destruct s as [|c s]; [reflexivity|]. cbn. now intros ->. Qed.

(** C6, as amended: the resolved endpoint is the base without the slashes
    at its end, followed by the path, to which one slash is added in front
    when it does not start with one.  What comes before the path does not end
    with a slash; when the path starts with at most one slash, exactly one
    slash separates the two, and when it starts with more, all of them are
    kept.  Every request of every submission goes to that one endpoint. *)
Theorem endpoint_strips_base_and_completes_path (base path : jsstring) :
  let endpoint := BACKEND_ENDPOINT (configured base path) in
  endpoint
  = replace_trailing_slashes base
    ++ slash :: (if startsWith_slash path then tail path else path)
  /\ ends_with_slash (replace_trailing_slashes base) = false
  /\ (exists n, base = replace_trailing_slashes base ++ replicate n slash)
  /\ (if startsWith_slash path && startsWith_slash (tail path)
      then endpoint = replace_trailing_slashes base ++ path
      else endpoint = spec_endpoint base path)
  /\ (forall message_of preset s net,
        Forall (fun request => fst request = endpoint)
          (requests
             (trace net
                (submitPrompt
                   {| process_env := configured base path;
                      null_read_message := message_of |} preset s)))).
Proof.
  cbv zeta.
  assert (Hcode : BACKEND_ENDPOINT (configured base path)
                  = replace_trailing_slashes base
                    ++ slash :: (if startsWith_slash path then tail path else path)).
  { unfold BACKEND_ENDPOINT, NORMALIZED_BACKEND_URL, NORMALIZED_BACKEND_PATH,
      RAW_BACKEND_URL, RAW_BACKEND_PATH. cbn [configured coalesce
      NEXT_PUBLIC_BACKEND_URL NEXT_PUBLIC_BACKEND_PATH].
    destruct path as [|c path]; [reflexivity|]. cbn [startsWith_slash tail].
    destruct (is_slash c) eqn:Hc; [|reflexivity].
    now rewrite (is_slash_eq c Hc). }
  split; [exact Hcode|].
  split; [apply replace_trailing_slashes_end|].
  split; [apply replace_trailing_slashes_suffix|].
  split.
  - rewrite Hcode. unfold spec_endpoint.
    destruct path as [|c path]; [reflexivity|]. cbn [startsWith_slash tail].
    destruct (is_slash c) eqn:Hc; cbn [andb].
    + rewrite (is_slash_eq c Hc).
      destruct (startsWith_slash path) eqn:Hpath; [reflexivity|].
      cbn [drop_leading_slashes]. change (is_slash slash) with true. cbn iota.
      now rewrite (drop_leading_slashes_id path Hpath).
    + cbn [drop_leading_slashes]. now rewrite Hc.
  - intros message_of preset s net.
    set (rt := {| process_env := configured base path; null_read_message := message_of |}).
    destruct (is_empty (trim (coalesce preset (input s)))) eqn:Hempty.
    + rewrite (submitPrompt_refused rt preset s); [constructor|].
      right. now destruct (trim (coalesce preset (input s))).
    + destruct (isLoading s) eqn:Hbusy.
      * rewrite (submitPrompt_refused rt preset s); [constructor | now left].
      * assert (Hacc : accepted preset s).
        { split; [|exact Hbusy]. intros Heq. now rewrite Heq in Hempty. }
        rewrite (single_flight_requests _ _ _ _ _ (submitPrompt_run rt preset s net Hacc)).
        now repeat constructor.
Qed.

(** Counterexample to C6 as stated: with the path [//chat] two slashes, not
    one, separate the base from the path. *)
Lemma endpoint_keeps_double_slash :
  BACKEND_ENDPOINT (configured (str "https://x") (str "//chat")) = str "https://x//chat"
  /\ spec_endpoint (str "https://x") (str "//chat") = str "https://x/chat"
  /\ BACKEND_ENDPOINT (configured (str "https://x") (str "//chat"))
     <> spec_endpoint (str "https://x") (str "//chat").
Proof. split; [reflexivity | split; [reflexivity | vm_compute; discriminate]]. Qed.

(** The example of the specification. *)
Example endpoint_example :
  BACKEND_ENDPOINT (configured (str "https://x/") (str "chat")) = str "https://x/chat".
Proof. reflexivity. Qed.
Example endpoint_default :
  BACKEND_ENDPOINT {| NEXT_PUBLIC_BACKEND_URL := None; NEXT_PUBLIC_BACKEND_PATH := None |}
  = str "https://fastapi-dev.calmdesert-eab0db8f.eastus.azurecontainerapps.io/chat".
Proof. reflexivity. Qed.

Example trim_hello : trim (str "  Hello  ") = str "Hello".
Proof. reflexivity. Qed.

(** Tabs, line ends and no-break spaces are trimmed; inner spaces stay. *)
Example trim_mixed : trim ([9; 160] ++ str "a b" ++ [13; 10; 8232]) = str "a b".
Proof. reflexivity. Qed.

Example trim_blank : trim ([32; 9; 10; 65279]) = [].
Proof. reflexivity. Qed.

(** A quote, a line feed and a control character are escaped. *)
Example stringify_escapes :
  Json.stringify (JString [34; 10; 1; 65]) = [34; 92; 34; 92; 110] ++ str "\u0001A" ++ [34].
Proof. reflexivity. Qed.

Example stringify_nested :
  Json.stringify
    (JObject [(str "a", JArray [JNumber (str "1"); JNull; JBool true]); (str "b", JObject [])])
  = str "{" ++ [34] ++ str "a" ++ [34] ++ str ":[1,null,true]," ++ [34] ++ str "b" ++ [34]
    ++ str ":{}}".
Proof. reflexivity. Qed.

Example replace_slashes : replace_trailing_slashes (str "a//b///") = str "a//b".
Proof. reflexivity. Qed.


(** ** Single flight of the page *)

Lemma catch_clause_closes err : closes_once (catch_clause err).
Proof. exists (Rejected err). reflexivity. Qed.

(** An accepted submission runs its opening updates and suspends on
    [fetch]; from there on it closes once. *)
Lemma submitPrompt_starts rt preset s :
  accepted preset s ->
  exists t,
    is_suspended t = true /\ closes_once t
    /\ forall s0,
         run_until_await (submitPrompt rt preset s) s0
         = (apply_updates (opening (trim (coalesce preset (input s)))) s0, t).
Proof.
  intros [Htext Hidle]. unfold submitPrompt.
  rewrite (is_empty_false _ Htext), Hidle. cbn [orb].
  eexists. split; [|split; [|reflexivity]]; [reflexivity|].
  intros [response|err]; [|apply catch_clause_closes].
  destruct (ok response); cbn [negb closes_once].
  - intros [payload|err]; [|apply catch_clause_closes].
    destruct (assistantContent rt payload) as [reply|err]; [|apply catch_clause_closes].
    exists (Fulfilled reply). reflexivity.
  - intros [body|err]; apply catch_clause_closes.
Qed.

Lemma isLoading_opening trimmed s : isLoading (apply_updates (opening trimmed) s) = true.
Proof. reflexivity. Qed.

Lemma isLoading_closing outcome s : isLoading (apply_updates (closing outcome) s) = false.
Proof. now destruct outcome. Qed.

Lemma sync_single_flight us p :
  (forall s, isLoading (apply_updates us s) = isLoading s) ->
  single_flight_page p -> single_flight_page (sync us p).
Proof.
  intros Hkeep [[Hnone Hidle] | (t & Hone & Hsusp & Hcloses & Hbusy)].
  - left. split; [exact Hnone|]. cbn [sync rendered]. now rewrite Hkeep.
  - right. exists t. repeat split; try assumption. cbn [sync rendered]. now rewrite Hkeep.
Qed.

(** Starting a submission, with or without the highlight of a suggestion
    in front of it. *)
Lemma start_single_flight rt preset (highlight : list Update) p :
  (forall s, isLoading (apply_updates highlight s) = isLoading s) ->
  single_flight_page p ->
  single_flight_page
    (start (foldr Dispatch (submitPrompt rt preset (rendered p)) highlight) p).
Proof.
  intros Hkeep Hinv. unfold start.
  assert (Hrun : forall t s,
             run_until_await (foldr Dispatch t highlight) s
             = run_until_await t (apply_updates highlight s)).
  { intros t. clear. induction highlight as [|u us IH]; intros s; [reflexivity|].
    cbn [foldr run_until_await]. apply IH. }
  rewrite Hrun.
  destruct (decide (isLoading (rendered p) = true)) as [Hbusy | Hidle].
  - rewrite (submitPrompt_refused rt preset (rendered p) (or_introl Hbusy)).
    cbn [run_until_await]. now apply (sync_single_flight highlight p).
  - apply not_true_is_false in Hidle.
    destruct Hinv as [[Hnone _] | (t & _ & _ & _ & Hbusy)]; [|congruence].
    destruct (decide (trim (coalesce preset (input (rendered p))) = [])) as [Hempty | Htext].
    + rewrite (submitPrompt_refused rt preset (rendered p) (or_intror Hempty)).
      cbn [run_until_await]. left. cbn [rendered suspended].
      split; [exact Hnone|]. now rewrite Hkeep.
    + destruct (submitPrompt_starts rt preset (rendered p) (conj Htext Hidle))
        as (t & Hsusp & Hcloses & ->).
      right. exists t. cbn [rendered suspended]. rewrite Hnone.
      destruct t; try discriminate; now repeat split.
Qed.

Lemma settle_single_flight n net p :
  single_flight_page p -> single_flight_page (settle n net p).
Proof.
  intros [[Hnone Hidle] | (t & Hone & Hsusp & Hcloses & Hbusy)]; unfold settle.
  - rewrite Hnone. cbn. now left.
  - rewrite Hone. destruct n as [|n]; cbn [lookup list_lookup]; [|right; now exists t].
    assert (Hnext : closes_once (continue t net)).
    { destruct t; try discriminate; cbn [continue]; apply Hcloses. }
    destruct (continue t net) as [|u next|url init next|response next|response next]
      eqn:Hcontinue.
    + contradiction.
    + destruct Hnext as [outcome ->]. left. cbn. split; [reflexivity|].
      apply isLoading_closing.
    + right. eexists. cbn. now repeat split.
    + right. eexists. cbn. now repeat split.
    + right. eexists. cbn. now repeat split.
Qed.

Lemma handle_single_flight rt e p :
  single_flight_page p -> single_flight_page (handle rt e p).
Proof.
  destruct e as [value|files run|index| |id|suggestion| |n net]; cbn [handle].
  - now apply sync_single_flight.
  - apply sync_single_flight. now destruct files as [[|f files]|], run.
  - now apply sync_single_flight.
  - now apply sync_single_flight.
  - now apply sync_single_flight.
  - apply (start_single_flight rt (Some suggestion)
             [setHighlightedSuggestion (Value (Some suggestion))]). reflexivity.
  - apply (start_single_flight rt None []). reflexivity.
  - apply settle_single_flight.
Qed.

(** Whatever the user does and however the network answers, the page never
    has two submissions in flight, and its loading flag is set exactly while
    one is. *)
Lemma page_is_single_flight rt events :
  single_flight_page (play rt events initial_page).
Proof.
  unfold play. rewrite <- (rev_involutive events).
  induction (rev events) as [|e es IH]; [left; now split|].
  cbn [rev]. rewrite foldl_app. apply handle_single_flight, IH.
Qed.

Lemma in_flight_iff_loading rt events :
  let page := play rt events initial_page in
  (length (suspended page) <= 1)%nat
  /\ (isLoading (rendered page) = true <-> suspended page <> []).
Proof.
  cbv zeta.
  destruct (page_is_single_flight rt events) as [[-> ->] | (t & -> & _ & _ & ->)].
  - split; [cbn; lia|]. split; [discriminate | congruence].
  - split; [cbn; lia|]. split; [discriminate | reflexivity].
Qed.

(** ** The scenarios of the specification *)

Lemma hello_accepted : accepted (Some (str "Hello")) initial_session.
Proof. split; [discriminate | reflexivity]. Defined.

Example scenario_hello_hi :
  submit_and_settle (v8 no_env) (Some (str "Hello"))
    (Fulfilled (json_response (JObject [(str "reply", JString (str "Hi!"))])))
    initial_session
  = {| messages := [{| role := assistant; content := JString WELCOME_MESSAGE |};
                    {| role := user; content := JString (str "Hello") |};
                    {| role := assistant; content := JString (str "Hi!") |}];
       input := [];
       isLoading := false;
       error := [];
       highlightedSuggestion := None;
       attachedFiles := [];
       activeHistoryId := str "deployment" |}.
Proof. reflexivity. Qed.

Example scenario_server_exploded :
  let s' := submit_and_settle (v8 no_env) (Some (str "Hello"))
              (Fulfilled (error_response (str "server exploded") (str "Unexpected token")))
              initial_session in
  last (messages s') = Some {| role := assistant; content := JString APOLOGY |}
  /\ error s' = str "server exploded"
  /\ isLoading s' = false.
Proof. now repeat split. Qed.

(** ** Instances *)

Lemma submit_appends_one_user_then_one_assistant_witness :
  accepted (Some (str "Hello")) initial_session
  /\ exists before url init after reply,
       single_flight
         (trace (Fulfilled (json_response (JObject [(str "reply", JString (str "Hi!"))])))
            (submitPrompt (v8 no_env) (Some (str "Hello")) initial_session))
         before url init after
       /\ (forall s0,
             messages (apply_updates before s0)
             = messages s0
               ++ [{| role := user;
                      content := JString (trim (coalesce (Some (str "Hello"))
                                                  (input initial_session))) |}])
       /\ role reply = assistant
       /\ (forall s1, messages (apply_updates after s1) = messages s1 ++ [reply])
       /\ Forall (fun u => forall s2, messages s2 `prefix_of` messages (apply_update u s2))
            (before ++ after).
Proof.
  split; [exact hello_accepted|].
  exact (submit_appends_one_user_then_one_assistant (v8 no_env) (Some (str "Hello"))
           initial_session
           (Fulfilled (json_response (JObject [(str "reply", JString (str "Hi!"))])))
           hello_accepted).
Defined.

Lemma submit_refused_does_nothing_witness :
  (isLoading busy_session = true
   \/ trim (coalesce (Some (str "Hello")) (input busy_session)) = [])
  /\ dispatched (trace (Rejected NotAnError)
                   (submitPrompt (v8 no_env) (Some (str "Hello")) busy_session)) = []
  /\ requests (trace (Rejected NotAnError)
                 (submitPrompt (v8 no_env) (Some (str "Hello")) busy_session)) = []
  /\ submit_and_settle (v8 no_env) (Some (str "Hello")) (Rejected NotAnError) busy_session
     = busy_session.
Proof.
  split; [left; reflexivity|].
  exact (submit_refused_does_nothing (v8 no_env) (Some (str "Hello")) busy_session
           (Rejected NotAnError) (or_introl eq_refl)).
Defined.

Lemma request_has_one_of_two_shapes_witness :
  accepted (Some (str "Hello")) initial_session
  /\ requests (trace (Rejected NotAnError)
                 (submitPrompt (v8 no_env) (Some (str "Hello")) initial_session))
     = [(str "https://fastapi-dev.calmdesert-eab0db8f.eastus.azurecontainerapps.io/chat",
         {| method := str "POST";
            headers := Some [(str "Content-Type", str "application/json")];
            body := StringBody (str "{" ++ [34] ++ str "prompt" ++ [34] ++ str ":"
                                ++ [34] ++ str "Hello" ++ [34] ++ str "}") |})].
Proof.
  split; [exact hello_accepted|].
  exact (request_has_one_of_two_shapes (v8 no_env) (Some (str "Hello")) initial_session
           (Rejected NotAnError) hello_accepted).
Defined.

Lemma failure_appends_apology_and_surfaces_error_witness :
  accepted (Some (str "Hello")) initial_session
  /\ failed (Fulfilled (error_response (str "server exploded") (str "Unexpected token")))
  /\ exists before url init after,
       single_flight
         (trace (Fulfilled (error_response (str "server exploded") (str "Unexpected token")))
            (submitPrompt (v8 no_env) (Some (str "Hello")) initial_session))
         before url init after
       /\ requests
            (trace (Fulfilled (error_response (str "server exploded") (str "Unexpected token")))
               (submitPrompt (v8 no_env) (Some (str "Hello")) initial_session))
          = [(url, init)]
       /\ (forall s0, error (apply_updates before s0) = [])
       /\ (forall s1,
             apply_updates after s1
             = {| messages :=
                    messages s1 ++ [{| role := assistant; content := JString APOLOGY |}];
                  input := input s1;
                  isLoading := false;
                  error := str "server exploded";
                  highlightedSuggestion := highlightedSuggestion s1;
                  attachedFiles := attachedFiles s1;
                  activeHistoryId := activeHistoryId s1 |}).
Proof.
  split; [exact hello_accepted|].
  split; [reflexivity|].
  exact (failure_appends_apology_and_surfaces_error (v8 no_env) (Some (str "Hello"))
           initial_session
           (Fulfilled (error_response (str "server exploded") (str "Unexpected token")))
           hello_accepted eq_refl).
Defined.

Lemma unparsable_body_takes_failure_path_witness :
  accepted (Some (str "Hello")) initial_session
  /\ ok (unparsable_response (str "<html>") (str "Unexpected token")) = true
  /\ json (unparsable_response (str "<html>") (str "Unexpected token"))
     = Rejected (ErrorObject (str "Unexpected token"))
  /\ exists before url init after,
       single_flight
         (trace (Fulfilled (unparsable_response (str "<html>") (str "Unexpected token")))
            (submitPrompt (v8 no_env) (Some (str "Hello")) initial_session))
         before url init after
       /\ (forall s1,
             apply_updates after s1
             = {| messages :=
                    messages s1 ++ [{| role := assistant; content := JString APOLOGY |}];
                  input := input s1;
                  isLoading := false;
                  error := str "Unexpected token";
                  highlightedSuggestion := highlightedSuggestion s1;
                  attachedFiles := attachedFiles s1;
                  activeHistoryId := activeHistoryId s1 |}).
Proof.
  split; [exact hello_accepted|].
  split; [reflexivity|].
  split; [reflexivity|].
  exact (unparsable_body_takes_failure_path (v8 no_env) (Some (str "Hello"))
           initial_session (unparsable_response (str "<html>") (str "Unexpected token"))
           (str "Unexpected token") hello_accepted eq_refl eq_refl).
Defined.

Lemma attachments_cleared_exactly_on_success_witness :
  accepted (Some (str "Hello")) initial_session
  /\ exists before url init after,
       single_flight
         (trace (Fulfilled (json_response (JObject [(str "reply", JString (str "Hi!"))])))
            (submitPrompt (v8 no_env) (Some (str "Hello")) initial_session))
         before url init after
       /\ (forall s0, attachedFiles (apply_updates before s0) = attachedFiles s0)
       /\ (forall s1, attachedFiles (apply_updates after s1) = [])
       /\ (failed (Fulfilled (json_response (JObject [(str "reply", JString (str "Hi!"))])))
           -> False).
Proof.
  split; [exact hello_accepted|].
  destruct (attachments_cleared_exactly_on_success (v8 no_env) (Some (str "Hello"))
              initial_session
              (Fulfilled (json_response (JObject [(str "reply", JString (str "Hi!"))])))
              hello_accepted)
    as (before & url & init & after & Hrun & Hbefore & Hafter & Hfailed).
  exists before, url, init, after.
  split; [exact Hrun|].
  split; [exact Hbefore|].
  split; [exact Hafter|].
  intros H. discriminate (Hfailed H).
Defined.

Lemma reply_is_first_field_with_a_value_witness :
  accepted (Some (str "Hello")) initial_session
  /\ ok (json_response answer_message_payload) = true
  /\ json (json_response answer_message_payload) = Fulfilled answer_message_payload
  /\ answer_message_payload <> JNull
  /\ exists reply,
       messages (submit_and_settle (v8 no_env) (Some (str "Hello"))
                   (Fulfilled (json_response answer_message_payload)) initial_session)
       = messages initial_session
         ++ [{| role := user;
                content := JString (trim (coalesce (Some (str "Hello"))
                                            (input initial_session))) |};
             {| role := assistant; content := reply |}]
       /\ (forall earlier name later value,
             reply_fields = earlier ++ name :: later ->
             Forall (fun n => field answer_message_payload n = None) earlier ->
             field answer_message_payload name = Some value ->
             reply = value)
       /\ (Forall (fun n => field answer_message_payload n = None) reply_fields ->
           reply = JString (Json.stringify answer_message_payload)).
Proof.
  split; [exact hello_accepted|].
  split; [reflexivity|].
  split; [reflexivity|].
  split; [discriminate|].
  refine (reply_is_first_field_with_a_value (v8 no_env) (Some (str "Hello"))
            initial_session (json_response answer_message_payload)
            answer_message_payload hello_accepted eq_refl eq_refl _).
  discriminate.
Defined.

(** * Further properties *)

(** ** Trimming *)

Lemma trimStart_head (s : jsstring) :
  match trimStart s with c :: _ => is_white_space c = false | [] => True end.
Proof.
  induction s as [|c s IH]; [exact I|]. cbn [trimStart].
  destruct (is_white_space c) eqn:Hc; [exact IH | exact Hc].
Qed.

Lemma trimStart_id (s : jsstring) :
  match s with c :: _ => is_white_space c = false | [] => True end -> trimStart s = s.
Proof. destruct s as [|c s]; [reflexivity|]. cbn [trimStart]. now intros ->. Qed.

Lemma trimEnd_last (s : jsstring) :
  match last (trimEnd s) with Some c => is_white_space c = false | None => True end.
Proof.
  induction s as [|c s IH]; [exact I|]. cbn [trimEnd].
  destruct (trimEnd s) as [|d kept].
  - destruct (is_white_space c) eqn:Hc; [exact I | exact Hc].
  - exact IH.
Qed.

Lemma trimEnd_head (c : code_unit) (s : jsstring) :
  is_white_space c = false -> exists kept, trimEnd (c :: s) = c :: kept.
Proof.
  intros Hc. cbn [trimEnd]. destruct (trimEnd s) as [|d kept].
  - rewrite Hc. now exists [].
  - now exists (d :: kept).
Qed.

Lemma trimEnd_idempotent (s : jsstring) : trimEnd (trimEnd s) = trimEnd s.
Proof.
  induction s as [|c s IH]; [reflexivity|]. cbn [trimEnd].
  destruct (trimEnd s) as [|d kept] eqn:Hkept.
  - destruct (is_white_space c) eqn:Hc; [reflexivity|]. cbn [trimEnd]. now rewrite Hc.
  - change (trimEnd (c :: d :: kept))
      with (match trimEnd (d :: kept) with
            | [] => if is_white_space c then [] else [c]
            | k => c :: k
            end).
    now rewrite IH.
Qed.

Lemma trim_no_outer_white_space (s : jsstring) : no_outer_white_space (trim s).
Proof.
  unfold no_outer_white_space, trim. split; [|apply trimEnd_last].
  pose proof (trimStart_head s) as Hhead.
  destruct (trimStart s) as [|c rest]; [exact I|].
  now destruct (trimEnd_head c rest Hhead) as [kept ->].
Qed.

Lemma trim_idempotent (s : jsstring) : trim (trim s) = trim s.
Proof.
  unfold trim at 1.
  rewrite (trimStart_id (trim s)) by apply trim_no_outer_white_space.
  unfold trim. apply trimEnd_idempotent.
Qed.

(** ** What a submission sends and leaves *)

Lemma submit_and_settle_accepted rt preset s net :
  accepted preset s ->
  submit_and_settle rt preset net s
  = apply_updates (closing (settlement rt net))
      (apply_updates (opening (trim (coalesce preset (input s)))) s).
Proof.
  intros Hacc. unfold submit_and_settle.
  apply (single_flight_replay _ _ _ _ _ s (submitPrompt_run rt preset s net Hacc)).
Qed.

Lemma submit_and_settle_refused rt preset s net :
  isLoading s = true \/ trim (coalesce preset (input s)) = [] ->
  submit_and_settle rt preset net s = s /\ ~ accepted preset s.
Proof.
  intros Hrefused. unfold submit_and_settle.
  rewrite (submitPrompt_refused rt preset s Hrefused). split; [reflexivity|].
  intros [Htext Hidle]. destruct Hrefused as [Hbusy | Hempty]; congruence.
Qed.

(** The text of the user message an accepted submission appends is never
    empty and has no white space at its start or at its end, whatever the
    user typed around it. *)
Theorem user_message_is_trimmed_and_not_empty rt preset s net :
  accepted preset s ->
  exists text reply,
    messages (submit_and_settle rt preset net s)
    = messages s ++ [{| role := user; content := JString text |}; reply]
    /\ text <> []
    /\ no_outer_white_space text.
Proof.
  intros Hacc.
  destruct (messages_closing (settlement rt net)) as (reply & _ & Hafter).
  exists (trim (coalesce preset (input s))), reply.
  split; [|split; [apply Hacc | apply trim_no_outer_white_space]].
  rewrite (submit_and_settle_accepted rt preset s net Hacc), Hafter, messages_opening.
  now rewrite <- app_assoc.
Qed.

Lemma user_message_is_trimmed_and_not_empty_witness :
  accepted (Some (str "  Hello  ")) initial_session
  /\ exists text reply,
       messages (submit_and_settle (v8 no_env) (Some (str "  Hello  "))
                   (Rejected NotAnError) initial_session)
       = messages initial_session ++ [{| role := user; content := JString text |}; reply]
       /\ text <> []
       /\ no_outer_white_space text.
Proof.
  assert (Hacc : accepted (Some (str "  Hello  ")) initial_session)
    by (split; [discriminate | reflexivity]).
  split; [exact Hacc|].
  exact (user_message_is_trimmed_and_not_empty (v8 no_env) (Some (str "  Hello  "))
           initial_session (Rejected NotAnError) Hacc).
Defined.

(** White space around the text makes no difference, on either way to
    submit: a submission, of a preset or of the draft in the input, runs as the
    submission of its trimmed text does, and submitting the form runs as it
    does when the draft is already trimmed; so the request and the updates are
    the same. *)
Theorem outer_white_space_is_ignored rt preset s net :
  trace net (submitPrompt rt preset s)
  = trace net (submitPrompt rt (Some (trim (coalesce preset (input s)))) s)
  /\ trace net (handleSubmit rt s)
     = trace net (handleSubmit rt (apply_update (setInput (Value (trim (input s)))) s)).
Proof.
  unfold handleSubmit, submitPrompt. cbn [coalesce apply_update next_value input
    isLoading attachedFiles].
  now rewrite !trim_idempotent.
Qed.

(** The Send button is disabled exactly when submitting the form would be
    refused: it is enabled if and only if [handleSubmit] is accepted, and when
    it is disabled [handleSubmit] returns without doing anything. *)
Theorem send_enabled_iff_accepted rt (s : Session) :
  (send_disabled s = false <-> accepted None s)
  /\ (send_disabled s = true <-> handleSubmit rt s = Return).
Proof.
  unfold send_disabled, accepted, handleSubmit. cbn [coalesce].
  split; split.
  - intros [Hidle Htext]%orb_false_elim. split; [|exact Hidle].
    intros Heq. now rewrite Heq in Htext.
  - intros [Htext Hidle]. now rewrite Hidle, (is_empty_false _ Htext).
  - intros [Hbusy | Hempty]%orb_prop.
    + apply submitPrompt_refused. now left.
    + apply submitPrompt_refused. right. cbn [coalesce].
      now destruct (trim (input s)).
  - unfold submitPrompt. cbn [coalesce]. rewrite orb_comm.
    now destruct (isLoading s || is_empty (trim (input s))).
Qed.

(** A click on a suggestion while a submission is in flight sets the
    highlight and does nothing else; while none is in flight it sends the
    suggestion, not the draft in the input, and the draft is emptied all the
    same. *)
Theorem suggestion_click_sends_suggestion_and_drops_draft rt suggestion s net :
  trim suggestion <> [] ->
  (isLoading s = true ->
   trace net (selectSuggestion rt suggestion s)
   = [Did (setHighlightedSuggestion (Value (Some suggestion)))])
  /\ (isLoading s = false ->
      requests (trace net (selectSuggestion rt suggestion s))
      = [(BACKEND_ENDPOINT (process_env rt),
          requestInit (trim suggestion) (attachedFiles s))]
      /\ input (replay (trace net (selectSuggestion rt suggestion s)) s) = []
      /\ highlightedSuggestion (replay (trace net (selectSuggestion rt suggestion s)) s)
         = Some suggestion).
Proof.
  intros Htext. split.
  - intros Hbusy. unfold selectSuggestion. cbn [trace].
    now rewrite (submitPrompt_refused rt (Some suggestion) s (or_introl Hbusy)).
  - intros Hidle.
    assert (Hacc : accepted (Some suggestion) s) by now split.
    pose proof (submitPrompt_run rt (Some suggestion) s net Hacc) as Hrun.
    unfold selectSuggestion. cbn [trace coalesce] in *.
    split.
    + change (requests (Did ?u :: ?r)) with (requests r).
      apply (single_flight_requests _ _ _ _ _ Hrun).
    + unfold replay.
      change (dispatched (Did ?u :: ?r)) with (u :: dispatched r).
      rewrite (single_flight_dispatched _ _ _ _ _ Hrun).
      change (apply_updates (?u :: ?l) ?s0) with (apply_updates l (apply_update u s0)).
      rewrite apply_updates_app.
      now destruct (settlement rt net).
Qed.

Lemma suggestion_click_sends_suggestion_and_drops_draft_witness :
  trim (str "Hello") <> []
  /\ requests (trace (Rejected NotAnError)
                 (selectSuggestion (v8 no_env) (str "Hello") initial_session))
     = [(BACKEND_ENDPOINT no_env, requestInit (trim (str "Hello")) [])].
Proof.
  assert (Htext : trim (str "Hello") <> []) by discriminate.
  split; [exact Htext|].
  exact (proj1 (proj2 (suggestion_click_sends_suggestion_and_drops_draft (v8 no_env)
                         (str "Hello") initial_session (Rejected NotAnError) Htext)
                  eq_refl)).
Defined.

Lemma transcript_renders_settled rt preset s net :
  accepted preset s ->
  transcript_renders (submit_and_settle rt preset net s)
  = transcript_renders s && outcome_renders rt net.
Proof.
  intros Hacc. rewrite (submit_and_settle_accepted rt preset s net Hacc).
  unfold transcript_renders, outcome_renders.
  destruct (settlement rt net) as [reply|err];
    cbn [closing opening apply_updates foldl apply_update messages next_value push];
    rewrite !forallb_app; cbn [forallb content renderable];
    now rewrite ?andb_true_r.
Qed.

(** A settled submission stops the page only through what it puts in the
    transcript.  After an accepted submission has settled, the transcript can
    be rendered exactly when it could before and the assistant message is not
    an object nor an array holding one: a reply field holding an object is
    stored as it is, and React throws when it renders it.  In every other
    outcome, failures included, the loading flag is down and the input empty,
    and any further text that is not blank is accepted. *)
Theorem settled_submission_accepts_the_next rt preset s net (next : jsstring) :
  accepted preset s ->
  trim next <> [] ->
  transcript_renders s = true ->
  (transcript_renders (submit_and_settle rt preset net s) = true
   <-> outcome_renders rt net = true)
  /\ (failed net -> outcome_renders rt net = true)
  /\ (outcome_renders rt net = true ->
      isLoading (submit_and_settle rt preset net s) = false
      /\ input (submit_and_settle rt preset net s) = []
      /\ accepted (Some next) (submit_and_settle rt preset net s)).
Proof.
  intros Hacc Hnext Hrenders. split; [|split].
  - now rewrite (transcript_renders_settled rt preset s net Hacc), Hrenders.
  - intros Hfailed. unfold outcome_renders.
    now destruct (failed_settlement rt net Hfailed) as [-> | [-> _]].
  - intros _. rewrite (submit_and_settle_accepted rt preset s net Hacc).
    assert (Hidle : isLoading
                      (apply_updates (closing (settlement rt net))
                         (apply_updates (opening (trim (coalesce preset (input s)))) s))
                    = false) by apply isLoading_closing.
    split; [exact Hidle|]. split; [now destruct (settlement rt net)|].
    now split.
Qed.

Lemma settled_submission_accepts_the_next_witness :
  accepted (Some (str "Hello")) initial_session
  /\ trim (str "again") <> []
  /\ transcript_renders initial_session = true
  /\ accepted (Some (str "again"))
       (submit_and_settle (v8 no_env) (Some (str "Hello"))
          (Fulfilled (error_response (str "server exploded") (str "Unexpected token")))
          initial_session).
Proof.
  assert (Hnext : trim (str "again") <> []) by discriminate.
  split; [exact hello_accepted|]. split; [exact Hnext|]. split; [reflexivity|].
  exact (proj2 (proj2 (proj2 (proj2 (settled_submission_accepts_the_next (v8 no_env)
                                       (Some (str "Hello")) initial_session
                                       (Fulfilled (error_response (str "server exploded")
                                                     (str "Unexpected token")))
                                       (str "again") hello_accepted Hnext eq_refl))
                         eq_refl))).
Defined.

(** The reply that stops the page: an object under [reply] is stored as the
    content of the assistant message and the transcript can no longer be
    rendered. *)
Example object_reply_stops_the_page :
  transcript_renders
    (submit_and_settle (v8 no_env) (Some (str "Hello"))
       (Fulfilled (json_response
                     (JObject [(str "reply", JObject [(str "text", JString (str "Hi"))])])))
       initial_session)
  = false.
Proof. reflexivity. Qed.

(** A submission, accepted or not and however it settles, never changes the
    highlighted suggestion nor the selected history entry. *)
Theorem submission_leaves_highlight_and_history rt preset s net :
  highlightedSuggestion (submit_and_settle rt preset net s) = highlightedSuggestion s
  /\ activeHistoryId (submit_and_settle rt preset net s) = activeHistoryId s.
Proof.
  assert (Hcases : accepted preset s
                   \/ (isLoading s = true \/ trim (coalesce preset (input s)) = [])).
  { unfold accepted. destruct (isLoading s); [right; now left|].
    destruct (trim (coalesce preset (input s))); [right; now right | left; now split]. }
  destruct Hcases as [Hacc | Hrefused].
  - rewrite (submit_and_settle_accepted rt preset s net Hacc).
    now destruct (settlement rt net).
  - now destruct (submit_and_settle_refused rt preset s net Hrefused) as [-> _].
Qed.

(** ** The reply *)

Lemma field_not_null payload name value : field payload name = Some value -> value <> JNull.
Proof.
  destruct payload as [| | | | |props]; try discriminate. cbn [field].
  destruct (Json.own_property name props) as [[]|]; intros [= <-]; discriminate.
Qed.

Lemma first_value_not_null payload names fallback :
  fallback <> JNull -> first_value payload names fallback <> JNull.
Proof.
  intros Hfallback. induction names as [|name names IH]; [exact Hfallback|].
  cbn [first_value]. destruct (field payload name) as [value|] eqn:Hfield; [|exact IH].
  exact (field_not_null payload name value Hfield).
Qed.

Lemma assistantContent_not_null rt payload : assistantContent rt payload <> Fulfilled JNull.
Proof.
  assert (Hcases : payload = JNull \/ payload <> JNull)
    by (destruct payload; (now left) || (now right)).
  destruct Hcases as [-> | Hnot_null]; [discriminate|].
  rewrite (assistantContent_first_value rt payload Hnot_null). intros [= Heq].
  now apply (first_value_not_null payload reply_fields (JString (Json.stringify payload))).
Qed.

(** The assistant message a submission appends never holds [null]: a field
    holding [null] is passed over, and when every field is the serialization
    of the payload, a string, is taken. *)
Theorem assistant_message_is_never_null rt preset s net :
  accepted preset s ->
  exists sent reply,
    messages (submit_and_settle rt preset net s) = messages s ++ [sent; reply]
    /\ role reply = assistant
    /\ content reply <> JNull.
Proof.
  intros Hacc. rewrite (submit_and_settle_accepted rt preset s net Hacc).
  exists {| role := user; content := JString (trim (coalesce preset (input s))) |}.
  destruct (settlement rt net) as [reply|err] eqn:Hsettled.
  - exists {| role := assistant; content := reply |}.
    split; [cbn; now rewrite <- app_assoc|]. split; [reflexivity|].
    cbn [content]. intros ->.
    destruct net as [response|]; [|discriminate]. cbn [settlement] in Hsettled.
    destruct (ok response).
    + destruct (json response) as [payload|]; [|discriminate].
      now apply (assistantContent_not_null rt payload).
    + now destruct (text response).
  - exists {| role := assistant; content := JString APOLOGY |}.
    split; [cbn; now rewrite <- app_assoc|]. now split.
Qed.

Lemma assistant_message_is_never_null_witness :
  accepted (Some (str "Hello")) initial_session
  /\ exists sent reply,
       messages (submit_and_settle (v8 no_env) (Some (str "Hello"))
                   (Fulfilled (json_response null_reply_payload)) initial_session)
       = messages initial_session ++ [sent; reply]
       /\ role reply = assistant
       /\ content reply <> JNull.
Proof.
  split; [exact hello_accepted|].
  exact (assistant_message_is_never_null (v8 no_env) (Some (str "Hello")) initial_session
           (Fulfilled (json_response null_reply_payload)) hello_accepted).
Defined.

(** A response in the range 200-299 whose body is the JSON value [null] is
    settled as a failure: reading the first field throws, so the apology is
    appended, the message of that error goes to the error slot, the loading
    flag is cleared and the staged files stay. *)
Theorem null_payload_takes_failure_path rt preset s response :
  accepted preset s ->
  ok response = true ->
  json response = Fulfilled JNull ->
  exists before url init after,
    single_flight (trace (Fulfilled response) (submitPrompt rt preset s))
      before url init after
    /\ (forall s1,
          apply_updates after s1
          = {| messages :=
                 messages s1 ++ [{| role := assistant; content := JString APOLOGY |}];
               input := input s1;
               isLoading := false;
               error := null_read_message rt (str "reply");
               highlightedSuggestion := highlightedSuggestion s1;
               attachedFiles := attachedFiles s1;
               activeHistoryId := activeHistoryId s1 |}).
Proof.
  intros Hacc Hok Hjson.
  pose proof (submitPrompt_run rt preset s (Fulfilled response) Hacc) as Hrun.
  eexists _, _, _, _. split; [exact Hrun|].
  intros s1. cbn [settlement]. rewrite Hok, Hjson. apply closing_rejected.
Qed.

Lemma null_payload_takes_failure_path_witness :
  accepted (Some (str "Hello")) initial_session
  /\ ok (json_response JNull) = true
  /\ json (json_response JNull) = Fulfilled JNull
  /\ exists before url init after,
       single_flight
         (trace (Fulfilled (json_response JNull))
            (submitPrompt (v8 no_env) (Some (str "Hello")) initial_session))
         before url init after
       /\ (forall s1,
             apply_updates after s1
             = {| messages :=
                    messages s1 ++ [{| role := assistant; content := JString APOLOGY |}];
                  input := input s1;
                  isLoading := false;
                  error := null_read_message (v8 no_env) (str "reply");
                  highlightedSuggestion := highlightedSuggestion s1;
                  attachedFiles := attachedFiles s1;
                  activeHistoryId := activeHistoryId s1 |}).
Proof.
  split; [exact hello_accepted|]. split; [reflexivity|]. split; [reflexivity|].
  exact (null_payload_takes_failure_path (v8 no_env) (Some (str "Hello")) initial_session
           (json_response JNull) hello_accepted eq_refl eq_refl).
Defined.

(** ** The two variants of the page *)

(** With no file staged, the variant of the page without attachments runs
    as [app/page.tsx] does, the call of [setAttachedFiles] left out: the same
    request, the same updates in the same order, and the same session at the
    end. *)
Theorem plain_variant_agrees_without_files rt preset s net :
  attachedFiles s = [] ->
  trace net (Plain.submitPrompt rt preset s)
  = List.filter (fun a => negb (touches_attachedFiles a)) (trace net (submitPrompt rt preset s))
  /\ replay (trace net (Plain.submitPrompt rt preset s)) s = submit_and_settle rt preset net s.
Proof.
  intros Hfiles. unfold submit_and_settle, Plain.submitPrompt, submitPrompt, requestInit.
  rewrite Hfiles. cbn [length Nat.ltb Nat.leb].
  destruct (is_empty (trim (coalesce preset (input s))) || isLoading s); [now split|].
  assert (Hempty : forall s0, attachedFiles s0 = [] ->
                              apply_update (setAttachedFiles (Value [])) s0 = s0).
  { intros [] Heq. cbn in *. now subst. }
  destruct net as [response|err]; cbn [trace]; [|now split].
  destruct (ok response); cbn [negb trace].
  - destruct (json response) as [payload|err]; cbn [trace]; [|now split].
    destruct (assistantContent rt payload) as [reply|err]; [|now split].
    split; [reflexivity|]. unfold replay. cbn [trace dispatched map updates_of concat app].
    unfold apply_updates. cbn [foldl]. now rewrite Hempty.
  - destruct (text response) as [body|err]; now split.
Qed.

Lemma plain_variant_agrees_without_files_witness :
  attachedFiles initial_session = []
  /\ replay (trace (Fulfilled (json_response answer_message_payload))
               (Plain.submitPrompt (v8 no_env) (Some (str "Hello")) initial_session))
       initial_session
     = submit_and_settle (v8 no_env) (Some (str "Hello"))
         (Fulfilled (json_response answer_message_payload)) initial_session.
Proof.
  split; [reflexivity|].
  exact (proj2 (plain_variant_agrees_without_files (v8 no_env) (Some (str "Hello"))
                  initial_session (Fulfilled (json_response answer_message_payload))
                  eq_refl)).
Defined.

(** ** Staging and history *)

(** Selecting one file and removing the position it is given, the former
    length of the staged list, restores the session: the removal undoes the
    staging when the updater was run during the call, and removes nothing
    when the updater, run at render, staged nothing. *)
Theorem stage_then_remove_restores (run : UpdaterRun) (s : Session) (file : File) :
  apply_updates (removeAttachment (Z.of_nat (length (attachedFiles s))))
    (apply_updates (handleFileChange run (Some [file])) s)
  = s.
Proof.
  change (with_attachedFiles
            (filter_from (fun _ idx => negb (idx =? Z.of_nat (length (attachedFiles s)))%Z)
               0 (attachedFiles s ++ files_read_by_updater run [file])) s = s).
  rewrite filter_from_delete, Z.sub_0_r, Nat2Z.id.
  rewrite (proj2 (Z.leb_le 0 _) (Nat2Z.is_nonneg (length (attachedFiles s)))).
  destruct run; cbn [files_read_by_updater].
  - rewrite delete_take_drop, take_app_length, drop_ge, app_nil_r
      by (rewrite length_app; cbn; lia).
    apply with_attachedFiles_same.
  - rewrite app_nil_r, delete_take_drop, take_ge, drop_ge, app_nil_r by lia.
    apply with_attachedFiles_same.
Qed.

Lemma eqb_eq (a b : jsstring) : Json.eqb a b = true <-> a = b.
Proof.
  revert b. induction a as [|x a IH]; intros [|y b]; cbn [Json.eqb]; try easy.
  rewrite andb_true_iff, N.eqb_eq, IH. split; [now intros [-> ->] | now intros [= -> ->]].
Qed.

(** Selecting an entry of the history shows that entry, for each of the
    entries of the list, and selecting an identifier that no entry has shows
    none; the selection changes nothing else, the messages in particular. *)
Theorem history_select_shows_the_entry (s : Session) :
  Forall (fun session =>
            activeHistory (apply_updates (handleHistorySelect (hs_id session)) s)
            = Some session)
    HISTORY_SESSIONS
  /\ (forall id,
        match activeHistory (apply_updates (handleHistorySelect id) s) with
        | Some session => hs_id session = id /\ In session HISTORY_SESSIONS
        | None => ~ In id (map hs_id HISTORY_SESSIONS)
        end)
  /\ (forall id,
        apply_updates (handleHistorySelect id) s
        = apply_update (setActiveHistoryId (Value id)) s
        /\ messages (apply_updates (handleHistorySelect id) s) = messages s).
Proof.
  split; [now repeat constructor|]. split; [|now intros id].
  intros id. unfold activeHistory.
  change (activeHistoryId (apply_updates (handleHistorySelect id) s)) with id.
  destruct (List.find (fun session => Json.eqb (hs_id session) id) HISTORY_SESSIONS)
    as [session|] eqn:Hfind.
  - apply find_some in Hfind as [Hin Heq]. split; [now apply eqb_eq | exact Hin].
  - intros (session & <- & Hin)%in_map_iff.
    pose proof (find_none _ _ Hfind session Hin) as Hne. cbn beta in Hne.
    now rewrite (proj2 (eqb_eq _ _) eq_refl) in Hne.
Qed.

(** ** The page through its events *)

Lemma pending_fetch_starts rt preset p :
  idle_page p ->
  accepted preset (rendered p) ->
  start (submitPrompt rt preset (rendered p)) p
  = {| rendered := apply_updates (opening (trim (coalesce preset (input (rendered p)))))
                     (rendered p);
       suspended := [pending_fetch rt preset (rendered p)] |}.
Proof.
  intros Hidle Hacc. unfold start, pending_fetch.
  destruct (submitPrompt_starts rt preset (rendered p) Hacc) as (t & Hsusp & _ & Hrun).
  rewrite Hrun, Hidle. cbn [snd app]. now destruct t.
Qed.

(** The suspended submission closes at the first settlement or, when a body
    has to be read, at the second; in between it dispatches nothing. *)
Lemma pending_fetch_settles rt preset s net :
  accepted preset s ->
  (forall s1,
     settle 0 net {| rendered := s1; suspended := [pending_fetch rt preset s] |}
     = {| rendered := apply_updates (closing (settlement rt net)) s1; suspended := [] |})
  \/ exists t,
       (forall s1,
          settle 0 net {| rendered := s1; suspended := [pending_fetch rt preset s] |}
          = {| rendered := s1; suspended := [t] |})
       /\ (forall net' s2,
             settle 0 net' {| rendered := s2; suspended := [t] |}
             = {| rendered := apply_updates (closing (settlement rt net)) s2;
                  suspended := [] |}).
Proof.
  intros [Htext Hidle]. unfold pending_fetch, submitPrompt.
  rewrite (is_empty_false _ Htext), Hidle. cbn [orb run_until_await snd].
  destruct net as [response|err]; [|left; reflexivity].
  right. unfold settle. cbn [suspended lookup list_lookup continue settlement].
  destruct (ok response); cbn [negb].
  - eexists. split; [reflexivity|]. intros net' s2. cbn [suspended lookup list_lookup continue].
    destruct (json response) as [payload|err]; [|reflexivity].
    now destruct (assistantContent rt payload).
  - eexists. split; [reflexivity|]. intros net' s2. cbn [suspended lookup list_lookup continue].
    now destruct (text response).
Qed.

Lemma settle_idle n net p : idle_page p -> settle n net p = p.
Proof. unfold idle_page, settle. now intros ->. Qed.

(** What the page is after a submission, some synchronous updates [during]
    the flight, and two settlements. *)
Lemma page_settles_after rt preset p net (during : list Update) :
  idle_page p ->
  accepted preset (rendered p) ->
  settle 0 net
    (settle 0 net (sync during (start (submitPrompt rt preset (rendered p)) p)))
  = {| rendered :=
         apply_updates (closing (settlement rt net))
           (apply_updates during
              (apply_updates (opening (trim (coalesce preset (input (rendered p)))))
                 (rendered p)));
       suspended := [] |}.
Proof.
  intros Hidle Hacc. rewrite (pending_fetch_starts rt preset p Hidle Hacc).
  unfold sync. cbn [rendered suspended].
  destruct (pending_fetch_settles rt preset (rendered p) net Hacc)
    as [Hclose | (t & Hwait & Hclose)].
  - rewrite Hclose. now apply settle_idle.
  - now rewrite Hwait, Hclose.
Qed.

(** From an idle page, submitting the form and letting the promises settle
    with nothing in between leaves the page idle again, in the state the
    submission alone computes: after a rejected [fetch] the second settlement
    finds nothing suspended and changes nothing. *)
Theorem page_submission_round_trip rt p net :
  idle_page p ->
  accepted None (rendered p) ->
  play rt [FormSubmitted; PromiseSettled 0 net; PromiseSettled 0 net] p
  = {| rendered := submit_and_settle rt None net (rendered p); suspended := [] |}.
Proof.
  intros Hidle Hacc.
  change (play rt [FormSubmitted; PromiseSettled 0 net; PromiseSettled 0 net] p)
    with (settle 0 net (settle 0 net (start (submitPrompt rt None (rendered p)) p))).
  pose proof (page_settles_after rt None p net [] Hidle Hacc) as Hpage.
  assert (Hsync : forall q, sync [] q = q) by now intros [].
  rewrite Hsync in Hpage. rewrite Hpage.
  now rewrite (submit_and_settle_accepted rt None (rendered p) net Hacc).
Qed.

Lemma page_submission_round_trip_witness :
  idle_page (sync [setInput (Value (str "Hello"))] initial_page)
  /\ accepted None (rendered (sync [setInput (Value (str "Hello"))] initial_page))
  /\ play (v8 no_env)
       [FormSubmitted; PromiseSettled 0 (Rejected NotAnError);
        PromiseSettled 0 (Rejected NotAnError)]
       (sync [setInput (Value (str "Hello"))] initial_page)
     = {| rendered :=
            submit_and_settle (v8 no_env) None (Rejected NotAnError)
              (rendered (sync [setInput (Value (str "Hello"))] initial_page));
          suspended := [] |}.
Proof.
  assert (Hacc : accepted None (rendered (sync [setInput (Value (str "Hello"))] initial_page)))
    by (split; [discriminate | reflexivity]).
  split; [reflexivity|]. split; [exact Hacc|].
  exact (page_submission_round_trip (v8 no_env)
           (sync [setInput (Value (str "Hello"))] initial_page)
           (Rejected NotAnError) eq_refl Hacc).
Defined.

(** "New chat" does not cancel a submission in flight: the loading flag
    stays set over the fresh thread, and when the call settles its assistant
    message is appended right after the welcome message, without the user
    message it answers. *)
Theorem new_chat_in_flight_receives_the_reply rt p net :
  idle_page p ->
  accepted None (rendered p) ->
  isLoading (rendered (play rt [FormSubmitted; NewChatClicked] p)) = true
  /\ exists reply,
       role reply = assistant
       /\ play rt [FormSubmitted; NewChatClicked;
                   PromiseSettled 0 net; PromiseSettled 0 net] p
          = {| rendered :=
                 {| messages := [{| role := assistant; content := JString WELCOME_MESSAGE |};
                                 reply];
                    input := [];
                    isLoading := false;
                    error := match settlement rt net with
                             | Fulfilled _ => []
                             | Rejected err => error_message err
                             end;
                    highlightedSuggestion := None;
                    attachedFiles := [];
                    activeHistoryId := activeHistoryId (rendered p) |};
               suspended := [] |}.
Proof.
  intros Hidle Hacc. split.
  - change (play rt [FormSubmitted; NewChatClicked] p)
      with (sync handleNewChat (start (submitPrompt rt None (rendered p)) p)).
    now rewrite (pending_fetch_starts rt None p Hidle Hacc).
  - change (play rt [FormSubmitted; NewChatClicked;
                     PromiseSettled 0 net; PromiseSettled 0 net] p)
      with (settle 0 net
              (settle 0 net
                 (sync handleNewChat (start (submitPrompt rt None (rendered p)) p)))).
    rewrite (page_settles_after rt None p net handleNewChat Hidle Hacc).
    destruct (settlement rt net) as [reply|err].
    + now exists {| role := assistant; content := reply |}.
    + now exists {| role := assistant; content := JString APOLOGY |}.
Qed.

Lemma new_chat_in_flight_receives_the_reply_witness :
  idle_page (sync [setInput (Value (str "Hello"))] initial_page)
  /\ accepted None (rendered (sync [setInput (Value (str "Hello"))] initial_page))
  /\ isLoading
       (rendered (play (v8 no_env) [FormSubmitted; NewChatClicked]
                    (sync [setInput (Value (str "Hello"))] initial_page)))
     = true.
Proof.
  assert (Hacc : accepted None (rendered (sync [setInput (Value (str "Hello"))] initial_page)))
    by (split; [discriminate | reflexivity]).
  split; [reflexivity|]. split; [exact Hacc|].
  exact (proj1 (new_chat_in_flight_receives_the_reply (v8 no_env)
                  (sync [setInput (Value (str "Hello"))] initial_page)
                  (Rejected NotAnError) eq_refl Hacc)).
Defined.

(** Files selected while a submission is in flight are not part of its
    request, which was built from the files staged when it started.  When the
    submission succeeds no file stays staged.  When it fails, the staged files
    are the ones staged at the start, followed by the late ones only if React
    ran the updater of the selection during the call of the setter: run at
    render, after the input was emptied, the updater has appended nothing. *)
Theorem files_staged_in_flight_are_cleared_unsent rt p net (late : list File) run :
  idle_page p ->
  accepted None (rendered p) ->
  suspended (play rt [FormSubmitted; FilesSelected (Some late) run] p)
  = [pending_fetch rt None (rendered p)]
  /\ requests (trace net (pending_fetch rt None (rendered p)))
     = [(BACKEND_ENDPOINT (process_env rt),
         requestInit (trim (input (rendered p))) (attachedFiles (rendered p)))]
  /\ attachedFiles
       (rendered (play rt [FormSubmitted; FilesSelected (Some late) run;
                           PromiseSettled 0 net; PromiseSettled 0 net] p))
     = if succeeded rt net then []
       else attachedFiles (rendered p)
            ++ match run with DuringCall => late | AtRender => [] end.
Proof.
  intros Hidle Hacc. split; [|split].
  - change (play rt [FormSubmitted; FilesSelected (Some late) run] p)
      with (sync (handleFileChange run (Some late))
              (start (submitPrompt rt None (rendered p)) p)).
    now rewrite (pending_fetch_starts rt None p Hidle Hacc).
  - pose proof (single_flight_requests _ _ _ _ _
                  (submitPrompt_run rt None (rendered p) net Hacc)) as Hreq.
    destruct Hacc as [Htext Hloading]. unfold pending_fetch.
    unfold submitPrompt in *. rewrite (is_empty_false _ Htext), Hloading in *.
    exact Hreq.
  - change (play rt [FormSubmitted; FilesSelected (Some late) run;
                     PromiseSettled 0 net; PromiseSettled 0 net] p)
      with (settle 0 net
              (settle 0 net
                 (sync (handleFileChange run (Some late))
                    (start (submitPrompt rt None (rendered p)) p)))).
    rewrite (page_settles_after rt None p net (handleFileChange run (Some late)) Hidle Hacc).
    unfold succeeded. cbn [rendered].
    destruct (settlement rt net); [reflexivity|].
    destruct late, run; cbn; now rewrite ?app_nil_r.
Qed.

Lemma files_staged_in_flight_are_cleared_unsent_witness :
  idle_page (sync [setInput (Value (str "Hello"))] initial_page)
  /\ accepted None (rendered (sync [setInput (Value (str "Hello"))] initial_page))
  /\ attachedFiles
       (rendered
          (play (v8 no_env)
             [FormSubmitted;
              FilesSelected (Some [{| file_name := str "a.pdf"; file_size := 3;
                                      file_content := [1; 2; 3] |}]) AtRender;
              PromiseSettled 0 (Fulfilled (error_response (str "down") (str "Unexpected token")));
              PromiseSettled 0 (Fulfilled (error_response (str "down") (str "Unexpected token")))]
             (sync [setInput (Value (str "Hello"))] initial_page)))
     = [].
Proof.
  assert (Hacc : accepted None (rendered (sync [setInput (Value (str "Hello"))] initial_page)))
    by (split; [discriminate | reflexivity]).
  split; [reflexivity|]. split; [exact Hacc|].
  exact (proj2 (proj2 (files_staged_in_flight_are_cleared_unsent (v8 no_env)
                         (sync [setInput (Value (str "Hello"))] initial_page)
                         (Fulfilled (error_response (str "down") (str "Unexpected token")))
                         [{| file_name := str "a.pdf"; file_size := 3;
                             file_content := [1; 2; 3] |}]
                         AtRender eq_refl Hacc))).
Defined.

(** ** Invariants of the transcript *)

Lemma closing_prefix outcome s :
  messages s `prefix_of` messages (apply_updates (closing outcome) s).
Proof. destruct (messages_closing outcome) as (reply & _ & ->). now eexists. Qed.

Lemma start_extends rt preset (highlight : list Update) p :
  (forall s, messages (apply_updates highlight s) = messages s) ->
  messages (rendered p)
  `prefix_of`
  messages (rendered (start (foldr Dispatch (submitPrompt rt preset (rendered p)) highlight) p)).
Proof.
  intros Hkeep. unfold start.
  assert (Hrun : forall t s,
             run_until_await (foldr Dispatch t highlight) s
             = run_until_await t (apply_updates highlight s)).
  { intros t. clear. induction highlight as [|u us IH]; intros s; [reflexivity|].
    cbn [foldr run_until_await]. apply IH. }
  rewrite Hrun. unfold submitPrompt.
  destruct (is_empty (trim (coalesce preset (input (rendered p)))) || isLoading (rendered p)).
  - cbn [run_until_await rendered]. now rewrite Hkeep.
  - cbn [run_until_await rendered apply_update messages next_value push].
    rewrite Hkeep. now eexists.
Qed.

Lemma settle_extends n net p :
  single_flight_page p ->
  messages (rendered p) `prefix_of` messages (rendered (settle n net p)).
Proof.
  intros [[Hnone _] | (t & Hone & Hsusp & Hcloses & _)]; unfold settle.
  - now rewrite Hnone.
  - rewrite Hone. destruct n as [|n]; cbn [lookup list_lookup]; [|reflexivity].
    assert (Hnext : closes_once (continue t net)).
    { destruct t; try discriminate; cbn [continue]; apply Hcloses. }
    destruct (continue t net) as [|u next|url init next|response next|response next].
    + contradiction.
    + destruct Hnext as [outcome ->]. cbn [rendered]. apply closing_prefix.
    + reflexivity.
    + reflexivity.
    + reflexivity.
Qed.

Lemma handle_extends rt e p :
  single_flight_page p ->
  e <> NewChatClicked ->
  messages (rendered p) `prefix_of` messages (rendered (handle rt e p)).
Proof.
  intros Hinv Hne.
  destruct e as [value|files run|index| |id|suggestion| |n net]; cbn [handle].
  - reflexivity.
  - now destruct files as [[|f files]|], run.
  - reflexivity.
  - contradiction.
  - reflexivity.
  - apply (start_extends rt (Some suggestion)
             [setHighlightedSuggestion (Value (Some suggestion))]). reflexivity.
  - apply (start_extends rt None []). reflexivity.
  - now apply settle_extends.
Qed.

Lemma play_snoc rt events e p :
  play rt (events ++ [e]) p = handle rt e (play rt events p).
Proof. unfold play. now rewrite foldl_app. Qed.

Lemma play_single_flight rt events p :
  single_flight_page p -> single_flight_page (play rt events p).
Proof.
  intros Hinv. induction events as [|e events IH] using rev_ind; [exact Hinv|].
  rewrite play_snoc. now apply handle_single_flight.
Qed.

(** As long as "new chat" is not clicked, the transcript only grows at its
    end: whatever the user does and however the network answers, the messages
    shown before are the first messages shown after, in the same order. *)
Theorem transcript_only_grows rt events p :
  single_flight_page p ->
  ~ In NewChatClicked events ->
  messages (rendered p) `prefix_of` messages (rendered (play rt events p)).
Proof.
  intros Hinv. induction events as [|e events IH] using rev_ind; intros Hnot.
  - reflexivity.
  - rewrite play_snoc. etransitivity.
    + apply IH. intros Hin. apply Hnot, in_or_app. now left.
    + apply handle_extends; [now apply play_single_flight|].
      intros ->. apply Hnot, in_or_app. right. now left.
Qed.

Lemma transcript_only_grows_witness :
  single_flight_page initial_page
  /\ ~ In NewChatClicked
         [SuggestionClicked (str "Hello"); PromiseSettled 0 (Rejected NotAnError)]
  /\ (messages (rendered initial_page)
      `prefix_of`
      messages (rendered (play (v8 no_env)
                            [SuggestionClicked (str "Hello");
                             PromiseSettled 0 (Rejected NotAnError)]
                            initial_page))).
Proof.
  assert (Hinv : single_flight_page initial_page) by (left; now split).
  assert (Hnot : ~ In NewChatClicked
                     [SuggestionClicked (str "Hello");
                      PromiseSettled 0 (Rejected NotAnError)]).
  { intros [Heq | [Heq | []]]; discriminate. }
  split; [exact Hinv|]. split; [exact Hnot|].
  exact (transcript_only_grows (v8 no_env)
           [SuggestionClicked (str "Hello"); PromiseSettled 0 (Rejected NotAnError)]
           initial_page Hinv Hnot).
Defined.

(** The transcript is never empty and always starts with the welcome
    message, whatever the user does and however the network answers. *)
Theorem transcript_starts_with_welcome rt events :
  head (messages (rendered (play rt events initial_page)))
  = Some {| role := assistant; content := JString WELCOME_MESSAGE |}.
Proof.
  induction events as [|e events IH] using rev_ind; [reflexivity|].
  rewrite play_snoc.
  pose proof (play_single_flight rt events initial_page (or_introl (conj eq_refl eq_refl)))
    as Hinv.
  assert (Hcases : e = NewChatClicked \/ e <> NewChatClicked)
    by (destruct e; (now left) || (now right)).
  destruct Hcases as [-> | Hne]; [reflexivity|].
  destruct (handle_extends rt e _ Hinv Hne) as [added ->].
  destruct (messages (rendered (play rt events initial_page))); [discriminate | exact IH].
Qed.

(** ** Display of file sizes *)

Lemma tenths_nearest (size divisor : N) :
  0 < divisor ->
  2 * divisor * tenths size divisor <= 20 * size + divisor
  /\ 20 * size + divisor < 2 * divisor * (tenths size divisor + 1).
Proof.
  intros Hpos. unfold tenths.
  assert (Hne : 2 * divisor <> 0) by lia.
  pose proof (N.Div0.mul_div_le (20 * size + divisor) (2 * divisor)).
  pose proof (N.mul_succ_div_gt (20 * size + divisor) (2 * divisor) Hne).
  lia.
Qed.

(** From 1024 bytes on, and for the size of a file, an integer below
    [2^53], the size is shown with one decimal, in KB below 1048576 bytes and
    in MB from there on, and the number shown is the tenth nearest to the
    exact quotient, the upper one when the quotient lies halfway between two
    tenths; it is never below 1.0. *)
Theorem file_size_is_rounded_to_nearest_tenth (size : N) :
  1024 <= size < MAX_EXACT_SIZE ->
  exists n,
    formatFileSize size
    = decimal (n / 10) ++ str "." ++ decimal (n mod 10)
      ++ (if size <? 1048576 then str " KB" else str " MB")
    /\ (let unit := if size <? 1048576 then 1024 else 1048576 in
        2 * unit * n <= 20 * size + unit < 2 * unit * (n + 1))
    /\ 10 <= n.
Proof.
  intros [Hsize _]. unfold formatFileSize, toFixed1.
  replace (size <? 1024) with false by (symmetry; apply N.ltb_ge; exact Hsize).
  change (1024 * 1024) with 1048576.
  destruct (N.ltb_spec size 1048576) as [Hkb | Hmb].
  - exists (tenths size 1024). rewrite <- !app_assoc. split; [reflexivity|].
    pose proof (tenths_nearest size 1024 eq_refl) as [Hlow Hhigh].
    cbv zeta. lia.
  - exists (tenths size 1048576). rewrite <- !app_assoc. split; [reflexivity|].
    pose proof (tenths_nearest size 1048576 eq_refl) as [Hlow Hhigh].
    cbv zeta. lia.
Qed.

Lemma file_size_is_rounded_to_nearest_tenth_witness :
  1024 <= 1280 < MAX_EXACT_SIZE
  /\ formatFileSize 1280 = str "1.3 KB"
  /\ exists n,
       formatFileSize 1280
       = decimal (n / 10) ++ str "." ++ decimal (n mod 10)
         ++ (if 1280 <? 1048576 then str " KB" else str " MB")
       /\ (let unit := if 1280 <? 1048576 then 1024 else 1048576 in
           2 * unit * n <= 20 * 1280 + unit < 2 * unit * (n + 1))
       /\ 10 <= n.
Proof.
  assert (Hsize : 1024 <= 1280 < MAX_EXACT_SIZE) by (split; [discriminate | reflexivity]).
  split; [exact Hsize|]. split; [reflexivity|].
  exact (file_size_is_rounded_to_nearest_tenth 1280 Hsize).
Defined.

(** The unit is chosen before the rounding: the last 51 sizes below
    1048576 bytes are all shown as 1024.0 KB, not as 1.0 MB. *)
Theorem file_size_just_below_a_megabyte (size : N) :
  1048525 <= size < 1048576 ->
  formatFileSize size = str "1024.0 KB".
Proof.
  intros [Hlow Hhigh]. unfold formatFileSize, toFixed1.
  replace (size <? 1024) with false by (symmetry; apply N.ltb_ge; lia).
  replace (size <? 1024 * 1024) with true by (symmetry; apply N.ltb_lt; exact Hhigh).
  assert (Htenths : tenths size 1024 = 10240).
  { unfold tenths. symmetry.
    apply (N.div_unique _ _ _ (20 * size + 1024 - 2048 * 10240)); lia. }
  now rewrite Htenths.
Qed.

Lemma file_size_just_below_a_megabyte_witness :
  1048525 <= 1048575 < 1048576 /\ formatFileSize 1048575 = str "1024.0 KB".
Proof.
  assert (Hsize : 1048525 <= 1048575 < 1048576) by (split; [discriminate | reflexivity]).
  split; [exact Hsize|].
  exact (file_size_just_below_a_megabyte 1048575 Hsize).
Defined.

Example file_size_examples :
  formatFileSize 0 = str "0 B"
  /\ formatFileSize 1023 = str "1023 B"
  /\ formatFileSize 1024 = str "1.0 KB"
  /\ formatFileSize 1536 = str "1.5 KB"
  /\ formatFileSize 1048576 = str "1.0 MB"
  /\ formatFileSize 5767168 = str "5.5 MB".
Proof. now repeat split. Qed.

(** ** Display and normalisation of the endpoint *)

Lemma strip_prefix_app (prefix s rest : jsstring) :
  strip_prefix prefix s = Some rest -> s = prefix ++ rest.
Proof.
  revert s. induction prefix as [|p prefix IH]; intros [|c s]; cbn [strip_prefix app];
    try discriminate; try (now intros [= ->]).
  destruct (N.eqb_spec p c) as [->|]; [|discriminate].
  intros Hrest. now rewrite (IH s Hrest).
Qed.

(** The endpoint shown on the page is the endpoint without a leading
    [http://] or [https://]: at most one such prefix is removed, and nothing
    else. *)
Theorem endpoint_display_drops_only_the_scheme (env : ProcessEnv) :
  exists scheme,
    In scheme [[]; str "http://"; str "https://"]
    /\ BACKEND_ENDPOINT env = scheme ++ endpointDisplay env.
Proof.
  unfold endpointDisplay, strip_scheme.
  destruct (strip_prefix (str "https://") (BACKEND_ENDPOINT env)) as [rest|] eqn:Hhttps.
  - exists (str "https://"). split; [cbn; tauto | now apply strip_prefix_app].
  - destruct (strip_prefix (str "http://") (BACKEND_ENDPOINT env)) as [rest|] eqn:Hhttp.
    + exists (str "http://"). split; [cbn; tauto | now apply strip_prefix_app].
    + exists []. split; [cbn; tauto | reflexivity].
Qed.

Example endpoint_display_default :
  endpointDisplay no_env
  = str "fastapi-dev.calmdesert-eab0db8f.eastus.azurecontainerapps.io/chat".
Proof. reflexivity. Qed.

Lemma last_replicate_slash (s : jsstring) (n : nat) :
  last (s ++ replicate (S n) slash) = Some slash.
Proof.
  change (replicate (S n) slash) with (slash :: replicate n slash).
  now rewrite replicate_cons_app, app_assoc, last_snoc.
Qed.

(** A string that does not end with a slash is left as it is. *)
Lemma replace_trailing_slashes_id (s : jsstring) :
  ends_with_slash s = false -> replace_trailing_slashes s = s.
Proof.
  intros Hend. destruct (replace_trailing_slashes_suffix s) as [[|n] Hs].
  - now rewrite app_nil_r in Hs.
  - unfold ends_with_slash in Hend. rewrite Hs, last_replicate_slash in Hend. discriminate.
Qed.

Lemma normalized_path_starts_with_slash (env : ProcessEnv) :
  startsWith_slash (NORMALIZED_BACKEND_PATH env) = true.
Proof.
  unfold NORMALIZED_BACKEND_PATH.
  destruct (startsWith_slash (RAW_BACKEND_PATH env)) eqn:Hstart; [exact Hstart | reflexivity].
Qed.

(** The normalisation is idempotent: configuring the page with the base and
    the path it has already normalised resolves to the same endpoint. *)
Theorem endpoint_normalisation_is_idempotent (env : ProcessEnv) :
  BACKEND_ENDPOINT (configured (NORMALIZED_BACKEND_URL env) (NORMALIZED_BACKEND_PATH env))
  = BACKEND_ENDPOINT env.
Proof.
  change (BACKEND_ENDPOINT
            (configured (NORMALIZED_BACKEND_URL env) (NORMALIZED_BACKEND_PATH env)))
    with (replace_trailing_slashes (NORMALIZED_BACKEND_URL env)
          ++ (if startsWith_slash (NORMALIZED_BACKEND_PATH env)
              then NORMALIZED_BACKEND_PATH env
              else slash :: NORMALIZED_BACKEND_PATH env)).
  rewrite normalized_path_starts_with_slash.
  unfold NORMALIZED_BACKEND_URL at 1.
  now rewrite (replace_trailing_slashes_id _ (replace_trailing_slashes_end _)).
Qed.



(** ** Clicks while a submission is in flight *)

(** A second suggestion clicked while the first is in flight is not sent
    and appends nothing, but it takes the highlight: the page then highlights
    a suggestion other than the one it is waiting an answer for. *)
Theorem second_click_only_moves_the_highlight rt p (first second : jsstring) :
  idle_page p ->
  accepted (Some first) (rendered p) ->
  play rt [SuggestionClicked first; SuggestionClicked second] p
  = sync [setHighlightedSuggestion (Value (Some second))]
      (play rt [SuggestionClicked first] p).
Proof.
  intros Hidle Hacc.
  change (play rt [SuggestionClicked first; SuggestionClicked second] p)
    with (handle rt (SuggestionClicked second) (play rt [SuggestionClicked first] p)).
  assert (Hbusy : isLoading (rendered (play rt [SuggestionClicked first] p)) = true).
  { change (play rt [SuggestionClicked first] p)
      with (start (selectSuggestion rt first (rendered p)) p).
    unfold start, selectSuggestion. cbn [run_until_await].
    destruct (submitPrompt_starts rt (Some first) (rendered p) Hacc) as (t & _ & _ & ->).
    reflexivity. }
  cbn [handle]. unfold start, selectSuggestion. cbn [run_until_await].
  now rewrite (submitPrompt_refused rt (Some second) _ (or_introl Hbusy)).
Qed.

Lemma second_click_only_moves_the_highlight_witness :
  idle_page initial_page
  /\ accepted (Some (str "Hello")) (rendered initial_page)
  /\ play (v8 no_env) [SuggestionClicked (str "Hello"); SuggestionClicked (str "Other")]
       initial_page
     = sync [setHighlightedSuggestion (Value (Some (str "Other")))]
         (play (v8 no_env) [SuggestionClicked (str "Hello")] initial_page).
Proof.
  split; [reflexivity|]. split; [exact hello_accepted|].
  exact (second_click_only_moves_the_highlight (v8 no_env) initial_page
           (str "Hello") (str "Other") eq_refl hello_accepted).
Defined.

(** ** Further examples *)

(** A number too large for a double is parsed as infinity and serialized as
    [null]: the body [{foo: 1e400}] is shown as [{foo: null}]. *)
Example reply_of_overflowing_number :
  displayed_after_hello
    (Fulfilled (json_response (JObject [(str "foo", JNumber (str "Infinity"))])))
  = Some {| role := assistant;
            content := JString (str "{" ++ [34] ++ str "foo" ++ [34] ++ str ":null}") |}.
Proof. reflexivity. Qed.

(** A file selected after a character was typed, its updater run at the
    render that follows: nothing is staged. *)
Example selection_run_at_render_stages_nothing :
  attachedFiles
    (rendered
       (play (v8 no_env)
          [InputChanged (str "x");
           FilesSelected (Some [{| file_name := str "a.pdf"; file_size := 3;
                                   file_content := [1; 2; 3] |}]) AtRender]
          initial_page))
  = [].
Proof. reflexivity. Qed.

(** The same selection as the first event on the page, its updater run
    during the call: the file is staged. *)
Example selection_run_during_call_is_staged :
  attachedFiles
    (rendered
       (play (v8 no_env)
          [FilesSelected (Some [{| file_name := str "a.pdf"; file_size := 3;
                                   file_content := [1; 2; 3] |}]) DuringCall]
          initial_page))
  = [{| file_name := str "a.pdf"; file_size := 3; file_content := [1; 2; 3] |}].
Proof. reflexivity. Qed.
